(** * lessgoext/middleware: CSRF and JWT request guards

    A shallow embedding of [middleware/csrf.go] (the CSRF guard together with
    the JWT guard that follows it in the same file) and the properties of the
    token engine, the extractors and the two request handlers.

    Go values are modelled as follows:
    - [string]  : Rocq [string] (a sequence of 8-bit characters, as in Go);
    - [[]byte]  : [list byte];
    - [int]     : [Z] (lengths and indices never leave the 64-bit range);
    - [error]   : [option error], [None] being Go's [nil];
    - [map[string]interface{}] : [gmap string Value];
    - a panic at construction time : the left injection of a sum. *)

From Stdlib Require Import ZArith NArith Lia Strings.Ascii Strings.String Strings.Byte.
From stdpp Require Import base option list strings gmap.

Local Open Scope Z_scope.

(** ** Go strings and byte slices *)

Module GoString.

(** [len(s)] *)
Definition len (s : string) : Z := Z.of_nat (String.length s).

(** [strings.HasPrefix(s, p)] *)
Fixpoint HasPrefix (s p : string) {struct p} : bool :=
  match p, s with
  | EmptyString, _ => true
  | String _ _, EmptyString => false
  | String b p', String a s' => if Ascii.eqb a b then HasPrefix s' p' else false
  end.

(** The scan of [strings.Index]: the offset of the first occurrence of
    [substr] at or after the current position, counted from [i]. *)
Fixpoint index_from (s substr : string) (i : Z) : Z :=
  if HasPrefix s substr then i
  else match s with
       | EmptyString => -1
       | String _ s' => index_from s' substr (i + 1)
       end.

(** [strings.Index(s, substr)]: first occurrence, or [-1]. *)
Definition Index (s substr : string) : Z := index_from s substr 0.

Fixpoint drop (n : nat) (s : string) : string :=
  match n, s with
  | O, _ => s
  | S _, EmptyString => EmptyString
  | S n', String _ s' => drop n' s'
  end.

Fixpoint take (n : nat) (s : string) : string :=
  match n, s with
  | O, _ => EmptyString
  | S _, EmptyString => EmptyString
  | S n', String a s' => String a (take n' s')
  end.

(** [s[i:]]. Go panics unless [0 <= i <= len(s)]; both call sites of this
    file guard the index (see [Index_bound] and the length test of
    [JWTFromHeader]), so the slice is total here. *)
Definition slice_from (s : string) (i : Z) : string := drop (Z.to_nat i) s.

(** [s[:i]], under the same proviso. *)
Definition slice_to (s : string) (i : Z) : string := take (Z.to_nat i) s.

(** [[]byte(s)] and [string(b)] *)
Definition bytes_of (s : string) : list byte := list_byte_of_string s.
Definition of_bytes (b : list byte) : string := string_of_list_byte b.

End GoString.

(** ** Errors

    The error values that can flow through this file. *)

Inductive error : Type :=
| errorString (msg : string)                 (* errors.New, fmt.Errorf *)
| HTTPError (code : Z) (message : string)    (* lessgo.NewHTTPError *)
| hexErrLength                               (* hex.ErrLength *)
| hexInvalidByteError (c : ascii)            (* hex.InvalidByteError *)
| ioError (msg : string)                     (* a failure of the random source *)
| jwtValidationError (msg : string).         (* *jwt.ValidationError *)

(** [err.Error()]. (The text of an invalid-byte error also names the byte;
    no path of this file gets to print it.) *)
Definition Error (e : error) : string :=
  match e with
  | errorString m => m
  | HTTPError _ m => m
  | hexErrLength => "encoding/hex: odd length hex string"
  | hexInvalidByteError _ => "encoding/hex: invalid byte"
  | ioError m => m
  | jwtValidationError m => m
  end.

(** net/http status codes and lessgo's ready-made errors. *)
Definition StatusBadRequest : Z := 400.
Definition StatusUnauthorized : Z := 401.
Definition StatusForbidden : Z := 403.

Definition NewHTTPError (code : Z) (msg : string) : error := HTTPError code msg.
Definition ErrUnauthorized : error := NewHTTPError StatusUnauthorized "Unauthorized".

(** ** encoding/hex *)

Module hex.

Definition hextable : string := "0123456789abcdef".

Definition digit (n : N) : ascii :=
  match String.get (N.to_nat n) hextable with
  | Some c => c
  | None => "0"%char
  end.

(** [hex.EncodeToString]: two lower-case digits per byte, high nibble first. *)
Fixpoint EncodeToString (src : list byte) : string :=
  match src with
  | [] => EmptyString
  | b :: rest =>
      String (digit (N.shiftr (Byte.to_N b) 4))
        (String (digit (N.land (Byte.to_N b) 15)) (EncodeToString rest))
  end.

(** [fromHexChar]: both letter cases are accepted. *)
Definition fromHexChar (c : ascii) : option N :=
  let n := N_of_ascii c in
  if ((48 <=? n) && (n <=? 57))%N then Some (n - 48)%N
  else if ((97 <=? n) && (n <=? 102))%N then Some (n - 97 + 10)%N
  else if ((65 <=? n) && (n <=? 70))%N then Some (n - 65 + 10)%N
  else None.

Definition mkbyte (a b : N) : byte :=
  match Byte.of_N (N.lor (N.shiftl a 4) b) with
  | Some x => x
  | None => x00
  end.

(** [hex.DecodeString]: the bytes decoded so far and the error, scanning
    left to right; an unpaired last character is reported as a bad byte if
    it is no hex digit and as [ErrLength] otherwise. *)
Fixpoint DecodeString (s : string) : list byte * option error :=
  match s with
  | EmptyString => ([], None)
  | String p EmptyString =>
      match fromHexChar p with
      | None => ([], Some (hexInvalidByteError p))
      | Some _ => ([], Some hexErrLength)
      end
  | String p (String q rest) =>
      match fromHexChar p with
      | None => ([], Some (hexInvalidByteError p))
      | Some a =>
          match fromHexChar q with
          | None => ([], Some (hexInvalidByteError q))
          | Some b =>
              let '(dst, err) := DecodeString rest in
              (mkbyte a b :: dst, err)
          end
      end
  end.

End hex.

(** ** crypto/sha1 and crypto/hmac

    SHA-1 (FIPS 180-4) over 32-bit words kept in [Z] with the wrap-around
    written out, and HMAC (RFC 2104) on top of it. *)

Module sha1.

Definition BlockSize : nat := 64.
Definition Size : nat := 20.

Definition w32 (x : Z) : Z := x mod 2 ^ 32.
Definition add32 (x y : Z) : Z := w32 (x + y).
Definition rotl (n x : Z) : Z :=
  w32 (Z.lor (Z.shiftl x n) (Z.shiftr x (32 - n))).
Definition not32 (x : Z) : Z := Z.lxor x 4294967295.

Definition bz (b : byte) : Z := Z.of_N (Byte.to_N b).
Definition zb (z : Z) : byte :=
  match Byte.of_N (Z.to_N (z mod 256)) with
  | Some b => b
  | None => x00
  end.

(** Big-endian encoding of [x] on [n] bytes. *)
Fixpoint be_bytes (n : nat) (x : Z) : list byte :=
  match n with
  | O => []
  | S n' => zb (Z.shiftr x (8 * Z.of_nat n')) :: be_bytes n' x
  end.

(** Message padding: a 1 bit, zeros up to 56 mod 64, the bit length on 8 bytes. *)
Definition pad (msg : list byte) : list byte :=
  let l := length msg in
  let k := ((64 + 56 - (l + 1) mod 64) mod 64)%nat in
  msg ++ [x80] ++ replicate k x00 ++ be_bytes 8 (8 * Z.of_nat l).

Fixpoint words (bs : list byte) : list Z :=
  match bs with
  | a :: b :: c :: d :: rest =>
      (Z.shiftl (bz a) 24 + Z.shiftl (bz b) 16 + Z.shiftl (bz c) 8 + bz d)
        :: words rest
  | _ => []
  end.

(** The message schedule, newest word first: [rev_w] holds w[t-1], w[t-2], ... *)
Fixpoint extend (n : nat) (rev_w : list Z) : list Z :=
  match n with
  | O => rev_w
  | S n' =>
      let g i := nth i rev_w 0 in
      extend n'
        (rotl 1 (Z.lxor (Z.lxor (g 2%nat) (g 7%nat))
                        (Z.lxor (g 13%nat) (g 15%nat))) :: rev_w)
  end.

Definition schedule (block : list Z) : list Z :=
  rev (extend 64 (rev block)).

Definition f (t : nat) (b c d : Z) : Z :=
  if (t <? 20)%nat then Z.lor (Z.land b c) (Z.land (not32 b) d)
  else if (t <? 40)%nat then Z.lxor (Z.lxor b c) d
  else if (t <? 60)%nat then
    Z.lor (Z.lor (Z.land b c) (Z.land b d)) (Z.land c d)
  else Z.lxor (Z.lxor b c) d.

Definition K (t : nat) : Z :=
  if (t <? 20)%nat then 0x5A827999
  else if (t <? 40)%nat then 0x6ED9EBA1
  else if (t <? 60)%nat then 0x8F1BBCDC
  else 0xCA62C1D6.

Record digest := Digest { h0 : Z; h1 : Z; h2 : Z; h3 : Z; h4 : Z }.

Definition init : digest :=
  Digest 0x67452301 0xEFCDAB89 0x98BADCFE 0x10325476 0xC3D2E1F0.

Fixpoint rounds (t : nat) (ws : list Z) (s : digest) : digest :=
  match ws with
  | [] => s
  | w :: ws' =>
      let '(Digest a b c d e) := s in
      let tmp := add32 (add32 (add32 (add32 (rotl 5 a) (f t b c d)) e) w) (K t) in
      rounds (S t) ws' (Digest tmp a (rotl 30 b) c d)
  end.

Definition block (s : digest) (blk : list byte) : digest :=
  let '(Digest a b c d e) := rounds 0 (schedule (words blk)) s in
  Digest (add32 (h0 s) a) (add32 (h1 s) b) (add32 (h2 s) c)
         (add32 (h3 s) d) (add32 (h4 s) e).

Fixpoint blocks (n : nat) (s : digest) (bs : list byte) : digest :=
  match n with
  | O => s
  | S n' => blocks n' (block s (firstn 64 bs)) (skipn 64 bs)
  end.

(** [sha1.Sum] *)
Definition Sum (msg : list byte) : list byte :=
  let p := pad msg in
  let '(Digest a b c d e) := blocks (length p / 64) init p in
  be_bytes 4 a ++ be_bytes 4 b ++ be_bytes 4 c ++ be_bytes 4 d ++ be_bytes 4 e.

End sha1.

Module hmac.

Definition xor_byte (k : Z) (b : byte) : byte := sha1.zb (Z.lxor (sha1.bz b) k).

(** [hmac.New(sha1.New, key)]: the key brought to one block. *)
Definition block_key (key : list byte) : list byte :=
  let k := if (sha1.BlockSize <? length key)%nat then sha1.Sum key else key in
  k ++ replicate (sha1.BlockSize - length k) x00.

(** [h := hmac.New(sha1.New, key); h.Write(msg); h.Sum(nil)] *)
Definition Sum (key msg : list byte) : list byte :=
  let k := block_key key in
  sha1.Sum (map (xor_byte 0x5c) k ++ sha1.Sum (map (xor_byte 0x36) k ++ msg)).

End hmac.

(** ** The CSRF token engine (csrf.go, lines 176-192) *)

(** [generateCSRFToken]: [fmt.Sprintf("%s:%s", hex(mac), hex(salt))] where
    [mac] is the HMAC-SHA1 of [salt] under [secret]. *)
Definition generateCSRFToken (secret salt : list byte) : string :=
  hex.EncodeToString (hmac.Sum secret salt) +:+ ":" +:+ hex.EncodeToString salt.

(** [validateCSRFToken] *)
Definition validateCSRFToken (token : string) (secret : list byte)
  : bool * option error :=
  let sep := GoString.Index token ":" in
  if sep <? 0 then (false, None)
  else
    let '(salt, err) := hex.DecodeString (GoString.slice_from token (sep + 1)) in
    match err with
    | Some e => (false, Some e)
    | None => (String.eqb token (generateCSRFToken secret salt), None)
    end.

(** What "valid hex" means, independently of the decoder: an even number of
    characters, each of them a hexadecimal digit of either case. *)
Definition hex_digits : list ascii :=
  list_ascii_of_string "0123456789abcdefABCDEF".

Definition is_hex_digit (c : ascii) : bool := existsb (Ascii.eqb c) hex_digits.

Definition is_hex (s : string) : bool :=
  Nat.even (String.length s) && forallb is_hex_digit (list_ascii_of_string s).


(** ** The collaborators: net/http, jwt-go, lessgo, crypto/rand

    Only the part of each contract that csrf.go relies on. *)

(** [time.Time] as an offset from the zero instant; [IsZero] tests for it. *)
Definition Time : Type := Z.
Definition IsZero (t : Time) : bool := t =? 0.
Definition Hour : Z := 3600 * 10 ^ 9.

Module http.

Record Cookie : Type := mkCookie {
  Name : string;
  Value : string;
  Path : string;
  Domain : string;
  Expires : Time;
  Secure : bool;
  HttpOnly : bool
}.

End http.

Module jwt.

(** The [SigningMethod] interface. [Verify] answers [nil] when the
    signature of the signing string is good under the key. *)
Record SigningMethod : Type := mkSigningMethod {
  Alg : string;
  Verify : string → string → list byte → option error
}.

Record Token : Type := mkToken {
  Raw : string;
  Method : SigningMethod;
  Header : gmap string string;
  Claims : gmap string string;
  Signature : string;
  Valid : bool
}.

Definition Keyfunc : Type := Token → list byte * option error.

(** What [Parse] takes from the rest of the library: segment decoding
    (base64url, then JSON), the registry of signing methods, and the
    time-dependent checks of the claims. *)
Class Library : Type := mkLibrary {
  DecodeHeader : string → error + gmap string string;
  DecodeClaims : string → error + gmap string string;
  GetSigningMethod : string → option SigningMethod;
  ClaimsError : gmap string string → option string
}.

(** [strings.Split(s, sep)] for a one-byte separator. *)
Fixpoint Split (s : string) (sep : ascii) : list string :=
  match s with
  | EmptyString => [EmptyString]
  | String a s' =>
      if Ascii.eqb a sep then EmptyString :: Split s' sep
      else match Split s' sep with
           | [] => [String a EmptyString]
           | x :: r => String a x :: r
           end
  end.

(** The token as [Parse] hands it to the key function: three segments,
    header and claims decoded, the method looked up under the header's
    "alg". *)
Definition unverified `{Library} (tokenString : string) : error + Token :=
  match Split tokenString "." with
  | [h; p; s] =>
      match DecodeHeader h with
      | inl e => inl (jwtValidationError (Error e))
      | inr header =>
          match DecodeClaims p with
          | inl e => inl (jwtValidationError (Error e))
          | inr claims =>
              match header !! "alg"%string with
              | None =>
                  inl (jwtValidationError "signing method (alg) is unspecified.")
              | Some alg =>
                  match GetSigningMethod alg with
                  | None =>
                      inl (jwtValidationError "signing method (alg) is unavailable.")
                  | Some method =>
                      inr (mkToken tokenString method header claims EmptyString false)
                  end
              end
          end
      end
  | _ => inl (jwtValidationError "token contains an invalid number of segments")
  end.

Definition signing_string (tokenString : string) : string :=
  match Split tokenString "." with
  | [h; p; _] => h +:+ "." +:+ p
  | _ => EmptyString
  end.

Definition signature (tokenString : string) : string :=
  match Split tokenString "." with
  | [_; _; s] => s
  | _ => EmptyString
  end.

(** [jwt.Parse]. The answer is either an error or a token with [Valid]
    set; the half-filled token that accompanies an error is never read by
    the caller and is left out. *)
Definition Parse `{Library} (tokenString : string) (keyFunc : Keyfunc)
  : error + Token :=
  match unverified tokenString with
  | inl e => inl e
  | inr token =>
      match keyFunc token with
      | (_, Some err) => inl (jwtValidationError (Error err))
      | (key, None) =>
          let sig := signature tokenString in
          let token :=
            mkToken (Raw token) (Method token) (Header token) (Claims token)
                    sig false in
          match Verify (Method token) (signing_string tokenString) sig key,
                ClaimsError (Claims token) with
          | None, None =>
              inr (mkToken (Raw token) (Method token) (Header token)
                           (Claims token) sig true)
          | Some e, _ => inl (jwtValidationError (Error e))
          | None, Some m => inl (jwtValidationError m)
          end
      end
  end.

End jwt.

Module lessgo.

Definition GET : string := "GET".
Definition HEAD : string := "HEAD".
Definition OPTIONS : string := "OPTIONS".
Definition TRACE : string := "TRACE".

Definition HeaderAuthorization : string := "Authorization".
Definition HeaderXCSRFToken : string := "X-CSRF-Token".

(** The request, through the three accessors the extractors use:
    [Header.Get], the form values and the query parameters. *)
Record Request : Type := mkRequest {
  Method : string;
  Header_Get : string → string;
  Form : string → string;
  Query : string → string
}.

(** What a handler may leave in the context store. *)
Inductive value : Type :=
| VString (s : string)
| VToken (t : jwt.Token).

Record Context : Type := mkContext {
  request : Request;
  store : gmap string value;
  cookies : list http.Cookie      (* the Set-Cookie headers of the response *)
}.

(** [c.Set(key, val)] *)
Definition Set_ (key : string) (val : value) (c : Context) : Context :=
  mkContext (request c) (<[key := val]> (store c)) (cookies c).

(** [c.SetCookie(cookie)] *)
Definition SetCookie (cookie : http.Cookie) (c : Context) : Context :=
  mkContext (request c) (store c) (cookies c ++ [cookie]).

Definition FormValue (c : Context) (name : string) : string := Form (request c) name.

(** [lessgo.HandlerFunc]: the handler works on the context it is given
    and answers an error or [nil]. *)
Definition HandlerFunc : Type := Context → option error * Context.

End lessgo.

Module rand.

(** One read of [crypto/rand.Reader]: either the buffer is filled, or the
    source fails after some bytes. *)
Inductive outcome : Type :=
| Filled (bytes : nat → byte)
| Failed (partial : list byte) (err : error).

(** [rand.Read(buf)]: the buffer afterwards, and the error. *)
Definition Read (o : outcome) (buf : list byte) : list byte * option error :=
  match o with
  | Filled f => (map f (seq 0 (length buf)), None)
  | Failed partial err =>
      (take (length buf) (partial ++ drop (length partial) buf), Some err)
  end.

End rand.

(** ** Running a guard

    A guard runs against the request context and the process-wide random
    source. The trace lists, in order, the calls it makes on its
    collaborators; nothing reads it back. *)

Inductive Event : Type :=
| EvRandRead
| EvSet (key : string) (val : lessgo.value)
| EvSetCookie (cookie : http.Cookie)
| EvExtractor
| EvNext.

Record World : Type := mkWorld {
  ctx : lessgo.Context;
  reads : nat;                        (* reads of the random source so far *)
  reader : nat → rand.outcome;        (* what each read will give *)
  trace : list Event
}.

Definition M (A : Type) : Type := World → A * World.

Definition ret {A} (a : A) : M A := fun w => (a, w).

Definition bind {A B} (m : M A) (k : A → M B) : M B :=
  fun w => let '(a, w') := m w in k a w'.

Notation "'let*' x ':=' m 'in' k" := (bind m (fun x => k))
  (at level 10, x pattern, m at level 100, k at level 200).
Notation "m1 ';;' m2" := (bind m1 (fun _ => m2))
  (at level 100, m2 at level 200, right associativity).

Definition emit (e : Event) : M unit :=
  fun w => (tt, mkWorld (ctx w) (reads w) (reader w) (trace w ++ [e])).

(** Run a collaborator on the context. *)
Definition on_ctx {A} (e : Event) (f : lessgo.Context → A * lessgo.Context) : M A :=
  fun w =>
    let '(a, c) := f (ctx w) in
    (a, mkWorld c (reads w) (reader w) (trace w ++ [e])).

Definition c_Request : M lessgo.Request := fun w => (lessgo.request (ctx w), w).

Definition c_Set (key : string) (val : lessgo.value) : M unit :=
  on_ctx (EvSet key val) (fun c => (tt, lessgo.Set_ key val c)).

Definition c_SetCookie (cookie : http.Cookie) : M unit :=
  on_ctx (EvSetCookie cookie) (fun c => (tt, lessgo.SetCookie cookie c)).

Definition rand_Read (buf : list byte) : M (list byte * option error) :=
  fun w =>
    (rand.Read (reader w (reads w)) buf,
     mkWorld (ctx w) (S (reads w)) (reader w) (trace w ++ [EvRandRead])).

(** A handler that has been wrapped by a guard. *)
Definition Handler : Type := M (option error).

(** ** csrf.go, lines 17-198: the CSRF guard *)

(** [CSRFTokenExtractor] *)
Definition CSRFTokenExtractor : Type :=
  lessgo.Context → (string * option error) * lessgo.Context.

Module CSRFConfig.

(** [Secret] and [Extractor] may be [nil]. *)
Record t : Type := mk {
  Secret : option (list byte);
  ContextKey : string;
  Extractor : option CSRFTokenExtractor;
  CookieName : string;
  CookieDomain : string;
  CookiePath : string;
  CookieExpires : Time;
  CookieSecure : bool;
  CookieHTTPOnly : bool
}.

End CSRFConfig.

(** A [nil] slice reads as the empty one. *)
Definition bytes (b : option (list byte)) : list byte := default [] b.

(** [CSRFTokenFromHeader] *)
Definition CSRFTokenFromHeader (header : string) : CSRFTokenExtractor :=
  fun c => ((lessgo.Header_Get (lessgo.request c) header, None), c).

(** [CSRFTokenFromForm] *)
Definition CSRFTokenFromForm (param : string) : CSRFTokenExtractor :=
  fun c =>
    let token := lessgo.FormValue c param in
    if String.eqb token "" then
      ((EmptyString, Some (errorString "empty csrf token in form param")), c)
    else ((token, None), c).


(** [DefaultCSRFConfig]; [now] is [time.Now()] when the package is
    initialised. *)
Definition DefaultCSRFConfig (now : Time) : CSRFConfig.t :=
  CSRFConfig.mk None "csrf" (Some (CSRFTokenFromHeader lessgo.HeaderXCSRFToken))
                "csrf" "" "" (now + 24 * Hour) false false.

(** [generateSalt]: a buffer of [len] zero bytes ([len] is a [uint8]) handed
    to [rand.Read]. *)
Definition generateSalt (len : Z) : M (list byte * option error) :=
  let salt := replicate (Z.to_nat (len mod 256)) x00 in
  rand_Read salt.

Definition safe_method (m : string) : bool :=
  String.eqb m lessgo.GET || String.eqb m lessgo.HEAD
  || String.eqb m lessgo.OPTIONS || String.eqb m lessgo.TRACE.

(** The cookie of lines 108-120. *)
Definition csrf_cookie (config : CSRFConfig.t) (token : string) : http.Cookie :=
  let cookie :=
    http.mkCookie (CSRFConfig.CookieName config) token "" ""
                  (CSRFConfig.CookieExpires config)
                  (CSRFConfig.CookieSecure config)
                  (CSRFConfig.CookieHTTPOnly config) in
  let cookie :=
    if negb (String.eqb (CSRFConfig.CookiePath config) "") then
      http.mkCookie (http.Name cookie) (http.Value cookie)
                    (CSRFConfig.CookiePath config) (http.Domain cookie)
                    (http.Expires cookie) (http.Secure cookie) (http.HttpOnly cookie)
    else cookie in
  if negb (String.eqb (CSRFConfig.CookieDomain config) "") then
    http.mkCookie (http.Name cookie) (http.Value cookie) (http.Path cookie)
                  (CSRFConfig.CookieDomain config)
                  (http.Expires cookie) (http.Secure cookie) (http.HttpOnly cookie)
  else cookie.

(** [config.Extractor(c)]; the field is never [nil] once the defaults have
    been applied ([csrf_defaults_Extractor]). *)
Definition csrf_Extractor (config : CSRFConfig.t) : CSRFTokenExtractor :=
  match CSRFConfig.Extractor config with
  | Some ex => ex
  | None => CSRFTokenFromHeader lessgo.HeaderXCSRFToken
  end.

(** The request handler of lines 98-139, for a configuration whose defaults
    have been applied. *)
Definition csrf_handler (config : CSRFConfig.t) (next : lessgo.HandlerFunc)
  : Handler :=
  let* req := c_Request in
  (* Set CSRF token *)
  let* (salt, err) := generateSalt 8 in
  match err with
  | Some e => ret (Some e)
  | None =>
      let token := generateCSRFToken (bytes (CSRFConfig.Secret config)) salt in
      c_Set (CSRFConfig.ContextKey config) (lessgo.VString token) ;;
      c_SetCookie (csrf_cookie config token) ;;
      if safe_method (lessgo.Method req) then on_ctx EvNext next
      else
        let* (token, err) := on_ctx EvExtractor (csrf_Extractor config) in
        match err with
        | Some e => ret (Some e)
        | None =>
            match validateCSRFToken token (bytes (CSRFConfig.Secret config)) with
            | (_, Some e) => ret (Some e)
            | (false, None) =>
                ret (Some (NewHTTPError StatusForbidden "invalid csrf token"))
            | (true, None) => on_ctx EvNext next
            end
        end
  end.

(** The defaults of lines 84-95. *)
Definition csrf_defaults (now : Time) (config : CSRFConfig.t) : CSRFConfig.t :=
  let d := DefaultCSRFConfig now in
  CSRFConfig.mk
    (CSRFConfig.Secret config)
    (if String.eqb (CSRFConfig.ContextKey config) "" then CSRFConfig.ContextKey d
     else CSRFConfig.ContextKey config)
    (match CSRFConfig.Extractor config with
     | None => CSRFConfig.Extractor d
     | Some ex => Some ex
     end)
    (if String.eqb (CSRFConfig.CookieName config) "" then CSRFConfig.CookieName d
     else CSRFConfig.CookieName config)
    (CSRFConfig.CookieDomain config)
    (CSRFConfig.CookiePath config)
    (if IsZero (CSRFConfig.CookieExpires config) then CSRFConfig.CookieExpires d
     else CSRFConfig.CookieExpires config)
    (CSRFConfig.CookieSecure config)
    (CSRFConfig.CookieHTTPOnly config).

(** [CSRFWithConfig.Middleware]: a panic without a secret, otherwise the
    wrapper of the next handler. *)
Definition CSRFWithConfig (now : Time) (confObject : CSRFConfig.t)
  : string + (lessgo.HandlerFunc → Handler) :=
  match CSRFConfig.Secret confObject with
  | None => inl "csrf secret must be provided"%string
  | Some _ => inr (csrf_handler (csrf_defaults now confObject))
  end.

(** ** csrf.go, lines 199-326: the JWT guard *)

(** [JWTExtractor] *)
Definition JWTExtractor : Type :=
  lessgo.Context → (string * option error) * lessgo.Context.

Module JWTConfig.

Record t : Type := mk {
  SigningKey : string;
  SigningMethod : string;
  ContextKey : string;
  Extractor : option JWTExtractor
}.

End JWTConfig.

Definition bearer : string := "Bearer".
Definition AlgorithmHS256 : string := "HS256".

(** [JWTFromHeader] *)
Definition JWTFromHeader : JWTExtractor :=
  fun c =>
    let auth := lessgo.Header_Get (lessgo.request c) lessgo.HeaderAuthorization in
    let l := GoString.len bearer in
    if (l + 1 <? GoString.len auth) && String.eqb (GoString.slice_to auth l) bearer
    then ((GoString.slice_from auth (l + 1), None), c)
    else ((EmptyString,
           Some (errorString "empty or invalid jwt in authorization header")), c).


(** [DefaultJWTConfig] *)
Definition DefaultJWTConfig : JWTConfig.t :=
  JWTConfig.mk "" AlgorithmHS256 "user" (Some JWTFromHeader).

(** The [%v] rendering of [t.Header["alg"]]. *)
Definition fmt_v (o : option string) : string := default "<nil>"%string o.

(** The key function of lines 286-293. *)
Definition jwt_keyFunc (config : JWTConfig.t) : jwt.Keyfunc :=
  fun t =>
    (* Check the signing method *)
    if negb (String.eqb (jwt.Alg (jwt.Method t)) (JWTConfig.SigningMethod config))
    then ([], Some (errorString ("unexpected jwt signing method="
                                 +:+ fmt_v (jwt.Header t !! "alg"%string))))
    else (GoString.bytes_of (JWTConfig.SigningKey config), None).

Definition jwt_Extractor (config : JWTConfig.t) : JWTExtractor :=
  match JWTConfig.Extractor config with
  | Some ex => ex
  | None => JWTFromHeader
  end.

(** The request handler of lines 281-300. *)
Definition jwt_handler `{jwt.Library} (config : JWTConfig.t)
    (next : lessgo.HandlerFunc) : Handler :=
  let* (auth, err) := on_ctx EvExtractor (jwt_Extractor config) in
  match err with
  | Some e => ret (Some (NewHTTPError StatusBadRequest (Error e)))
  | None =>
      match jwt.Parse auth (jwt_keyFunc config) with
      | inr token =>
          if jwt.Valid token then
            (* Store user information from token into context. *)
            c_Set (JWTConfig.ContextKey config) (lessgo.VToken token) ;;
            on_ctx EvNext next
          else ret (Some ErrUnauthorized)
      | inl _ => ret (Some ErrUnauthorized)
      end
  end.

(** The defaults of lines 270-278. *)
Definition jwt_defaults (config : JWTConfig.t) : JWTConfig.t :=
  JWTConfig.mk
    (JWTConfig.SigningKey config)
    (if String.eqb (JWTConfig.SigningMethod config) ""
     then JWTConfig.SigningMethod DefaultJWTConfig
     else JWTConfig.SigningMethod config)
    (if String.eqb (JWTConfig.ContextKey config) ""
     then JWTConfig.ContextKey DefaultJWTConfig
     else JWTConfig.ContextKey config)
    (match JWTConfig.Extractor config with
     | None => JWTConfig.Extractor DefaultJWTConfig
     | Some ex => Some ex
     end).

(** [JWTWithConfig.Middleware] *)
Definition JWTWithConfig `{jwt.Library} (confObject : JWTConfig.t)
  : string + (lessgo.HandlerFunc → Handler) :=
  if GoString.len (JWTConfig.SigningKey confObject) =? 0
  then inl "jwt middleware requires signing key"%string
  else inr (jwt_handler (jwt_defaults confObject)).

(** ** Vocabulary of the properties *)

(** The methods that do not change state. *)
Definition safe_methods : list string := ["GET"; "HEAD"; "OPTIONS"; "TRACE"]%string.

(** The context once the token issued from [salt] has been stored under the
    context key and sent as a cookie. *)
Definition csrf_issued (config : CSRFConfig.t) (salt : list byte)
    (c : lessgo.Context) : lessgo.Context :=
  let token := generateCSRFToken (bytes (CSRFConfig.Secret config)) salt in
  lessgo.SetCookie (csrf_cookie config token)
    (lessgo.Set_ (CSRFConfig.ContextKey config) (lessgo.VString token) c).

(** The calls of the issuing step, in order. *)
Definition csrf_issue_trace (config : CSRFConfig.t) (salt : list byte) : list Event :=
  let token := generateCSRFToken (bytes (CSRFConfig.Secret config)) salt in
  [EvRandRead;
   EvSet (CSRFConfig.ContextKey config) (lessgo.VString token);
   EvSetCookie (csrf_cookie config token)].


(** The header shape "Bearer", one space, a non-empty token. *)
Definition bearer_shape (auth token : string) : Prop :=
  auth = ("Bearer " +:+ token)%string ∧ token ≠ EmptyString.

(** A client error of class 400. *)
Definition is_bad_request (r : option error) : Prop :=
  ∃ msg, r = Some (HTTPError StatusBadRequest msg).

(** ** Sample collaborators *)

Module Sample.

(** A signing method that accepts every signature. *)
Definition accept_all : jwt.SigningMethod :=
  jwt.mkSigningMethod "none" (fun _ _ _ => None).

(** A signing method that checks an HMAC-SHA1 tag written in hex. *)
Definition hs1 : jwt.SigningMethod :=
  jwt.mkSigningMethod "HS1"
    (fun signing sig key =>
       if String.eqb sig
            (hex.EncodeToString (hmac.Sum key (GoString.bytes_of signing)))
       then None else Some (errorString "signature is invalid")).

(** A library whose segments are written in clear: the header segment is
    the name of the algorithm, and there are no claims to check. *)
#[export] Instance plain : jwt.Library :=
  jwt.mkLibrary
    (fun h => inr {[ "alg"%string := h ]})
    (fun _ => inr ∅)
    (fun alg => if String.eqb alg "none" then Some accept_all
                else if String.eqb alg "HS1" then Some hs1 else None)
    (fun _ => None).

Definition request (method : string) (headers form : list (string * string))
  : lessgo.Request :=
  let get (l : list (string * string)) (k : string) : string :=
    match find (fun kv => String.eqb kv.1 k) l with
    | Some kv => kv.2
    | None => EmptyString
    end in
  lessgo.mkRequest method (get headers) (get form) (fun _ => EmptyString).

Definition context (r : lessgo.Request) : lessgo.Context :=
  lessgo.mkContext r ∅ [].

(** A random source that works, and one that does not. *)
Definition counting : nat → rand.outcome :=
  fun _ => rand.Filled (fun i => sha1.zb (Z.of_nat i + 1)).
Definition broken : nat → rand.outcome :=
  fun _ => rand.Failed [] (ioError "unexpected EOF").

Definition world (r : lessgo.Request) (src : nat → rand.outcome) : World :=
  mkWorld (context r) 0 src [].

(** The next handler: it answers [nil] and leaves the context alone. *)
Definition ok : lessgo.HandlerFunc := fun c => (None, c).

Definition secret : list byte := GoString.bytes_of "k".

Definition csrf_config (ex : option CSRFTokenExtractor) : CSRFConfig.t :=
  CSRFConfig.mk (Some secret) "" ex "" "" "" 0 false false.

Definition jwt_config : JWTConfig.t := JWTConfig.mk "k" "" "" None.

End Sample.

Module SampleRuns.

Import Sample.

Definition csrf_default : CSRFConfig.t := csrf_defaults 0 (csrf_config None).
Definition csrf_form : CSRFConfig.t :=
  csrf_defaults 0 (csrf_config (Some (CSRFTokenFromForm "csrf"))).

Definition salt_of (i : nat) : byte := sha1.zb (Z.of_nat i + 1).

(** A GET and a POST without any token, with a working random source. *)
Definition get_world : World := world (request "GET" [] []) counting.
Definition post_world : World := world (request "POST" [] []) counting.

(** A GET while the random source is out of order. *)
Definition get_world_no_entropy : World := world (request "GET" [] []) broken.

(** A request that presents a token of algorithm "none" to a guard that
    expects HS256. *)
Definition none_world : World :=
  world (request "GET" [("Authorization", "Bearer none.claims.sig")] [])%string
        counting.

(** "Bearer" with the token glued to it. *)
Definition glued : lessgo.Context :=
  context (request "GET" [("Authorization", "Bearertoken")] [])%string.

End SampleRuns.
(** More sample requests. *)

Module MoreRuns.

Import Sample.

(** A POST that presents [t] in the default header. *)
Definition post_with (t : string) : World :=
  world (request "POST" [("X-CSRF-Token"%string, t)] []) counting.

(** A token made for a 3-byte salt, as no response of the guard carries. *)
Definition foreign_token : string := generateCSRFToken secret [xde; xad; xbe].

(** A bearer token of algorithm HS1 signed with the key "k". *)
Definition hs1_auth : string :=
  "HS1.claims.d7c71dc762014c37d8cbae00ec00e65a27b59c16".

Definition hs1_world : World :=
  world (request "GET" [("Authorization"%string, ("Bearer " +:+ hs1_auth)%string)] [])
        counting.

Definition hs1_config : JWTConfig.t := JWTConfig.mk "k" "HS1" "" None.

(** The same token when the guard holds another key. *)
Definition hs1_other_key : JWTConfig.t := JWTConfig.mk "k2" "HS1" "" None.

Definition hs1_token : jwt.Token :=
  jwt.mkToken hs1_auth hs1 {[ "alg"%string := "HS1"%string ]} ∅ EmptyString false.

(** A bearer string that is no token. *)
Definition junk_world : World :=
  world (request "GET" [("Authorization", "Bearer junk")] [])%string counting.

End MoreRuns.

(** * Properties *)

(** ** Test vectors *)

Example hmac_sha1_long_key :
  hex.EncodeToString
    (hmac.Sum (replicate 80 "k"%byte) (GoString.bytes_of "abc"))
  = "f5f3bc49e4d8bfdac7f9414bbf45cf6347c1d38b"%string.
Proof. vm_compute. reflexivity. Qed.

Example hmac_sha1_empty :
  hex.EncodeToString (hmac.Sum [] [])
  = "fbdb1d1b18aa6c08324b7d64b71fb76370690e1d"%string.
Proof. vm_compute. reflexivity. Qed.

Example sha1_abc :
  hex.EncodeToString (sha1.Sum (GoString.bytes_of "abc"))
  = "a9993e364706816aba3e25717850c26c9cd0d89d"%string.
Proof. vm_compute. reflexivity. Qed.

Example sha1_two_blocks :
  hex.EncodeToString
    (sha1.Sum (GoString.bytes_of
       "abcdbcdecdefdefgefghfghighijhijkijkljklmklmnlmnomnopnopq"))
  = "84983e441c3bd26ebaae4aa1f95129e5e54670f1"%string.
Proof. vm_compute. reflexivity. Qed.

Example hmac_sha1_rfc2202_2 :
  hex.EncodeToString
    (hmac.Sum (GoString.bytes_of "Jefe")
              (GoString.bytes_of "what do ya want for nothing?"))
  = "effcdf6ae5eb2fa2d27416d5f184df9c259a7c79"%string.
Proof. vm_compute. reflexivity. Qed.

Example generate_example :
  generateCSRFToken (GoString.bytes_of "k") [x01; x02; x03; x04; x05; x06; x07; x08]
  = "4ae1b42c9d6490e45d7a87b52ca8efec0051ecb1:0102030405060708"%string.
Proof. vm_compute. reflexivity. Qed.

(** ** Facts about strings and the hex codec *)

Section StringFacts.

Lemma append_nil (b : string) : EmptyString +:+ b = b.
Proof. reflexivity. Qed.

Lemma append_cons (x : ascii) (a b : string) :
  String x a +:+ b = String x (a +:+ b).
Proof. reflexivity. Qed.

Lemma append_assoc (a b c : string) : (a +:+ b) +:+ c = a +:+ (b +:+ c).
Proof.
  induction a as [|x a IH]; [reflexivity|].
  rewrite !append_cons. now rewrite IH.
Qed.

Lemma chars_append (a b : string) :
  list_ascii_of_string (a +:+ b)
  = list_ascii_of_string a ++ list_ascii_of_string b.
Proof.
  induction a as [|x a IH]; [reflexivity|].
  rewrite append_cons. simpl. now rewrite IH.
Qed.

Lemma length_append (a b : string) :
  String.length (a +:+ b) = (String.length a + String.length b)%nat.
Proof.
  induction a as [|x a IH]; [reflexivity|].
  rewrite append_cons. simpl. now rewrite IH.
Qed.

Lemma drop_append (a b : string) :
  GoString.drop (String.length a) (a +:+ b) = b.
Proof.
  induction a as [|x a IH]; [now destruct b|].
  rewrite append_cons. simpl. exact IH.
Qed.

(** A string without the byte [c] has no occurrence of the one-byte
    string [c]. *)
Lemma index_from_absent (c : ascii) (s : string) (i : Z) :
  ¬ In c (list_ascii_of_string s) →
  GoString.index_from s (String c EmptyString) i = -1.
Proof.
  revert i. induction s as [|a s IH]; intros i Hnin; simpl.
  - reflexivity.
  - simpl in Hnin. destruct (Ascii.eqb_spec a c) as [->|Hne].
    + exfalso. apply Hnin. now left.
    + apply IH. intros Hin. apply Hnin. now right.
Qed.

(** The first occurrence of [c] in [pre ++ c ++ post] is right after [pre]
    when [pre] is free of it. *)
Lemma index_from_first (c : ascii) (pre post : string) (i : Z) :
  ¬ In c (list_ascii_of_string pre) →
  GoString.index_from (pre +:+ String c post) (String c EmptyString) i
  = i + GoString.len pre.
Proof.
  revert i. unfold GoString.len.
  induction pre as [|a pre IH]; intros i Hnin;
    [rewrite append_nil | rewrite append_cons]; simpl.
  - rewrite Ascii.eqb_refl. lia.
  - simpl in Hnin. destruct (Ascii.eqb_spec a c) as [->|Hne].
    + exfalso. apply Hnin. now left.
    + rewrite IH by (intros Hin; apply Hnin; now right). lia.
Qed.

(** [strings.Index] answers a position inside the string, so the slice
    [token[sep+1:]] of [validateCSRFToken] is always in range. *)
Lemma index_from_bound (s : string) (c : ascii) (i : Z) :
  let r := GoString.index_from s (String c EmptyString) i in
  r = -1 ∨ (i <= r < i + GoString.len s).
Proof.
  revert i. unfold GoString.len.
  induction s as [|a s IH]; intros i; simpl.
  - now left.
  - destruct (Ascii.eqb a c).
    + right. lia.
    + destruct (IH (i + 1)) as [H|H]; [now left | right; lia].
Qed.

Lemma Index_bound (s : string) (c : ascii) :
  0 <= GoString.Index s (String c EmptyString) →
  GoString.Index s (String c EmptyString) + 1 <= GoString.len s.
Proof.
  intros H. unfold GoString.Index in *.
  destruct (index_from_bound s c 0) as [E|E]; simpl in E; lia.
Qed.

Lemma slice_after_first (c : ascii) (pre post : string) :
  ¬ In c (list_ascii_of_string pre) →
  GoString.slice_from (pre +:+ String c post)
    (GoString.Index (pre +:+ String c post) (String c EmptyString) + 1)
  = post.
Proof.
  intros Hnin. unfold GoString.Index, GoString.slice_from.
  rewrite index_from_first by assumption. unfold GoString.len.
  replace (Z.to_nat (0 + Z.of_nat (String.length pre) + 1))
    with (String.length (pre +:+ String c EmptyString)).
  - replace (pre +:+ String c post)
      with ((pre +:+ String c EmptyString) +:+ post)
      by (now rewrite append_assoc).
    apply drop_append.
  - rewrite length_append. simpl. lia.
Qed.

End StringFacts.

Section HexFacts.

(** Induction on strings two characters at a time, the way the decoder
    consumes them. *)
Lemma string_pair_ind (P : string → Prop) :
  P EmptyString →
  (∀ a, P (String a EmptyString)) →
  (∀ a b s, P s → P (String a (String b s))) →
  ∀ s, P s.
Proof.
  intros H0 H1 H2 s.
  assert (H : P s ∧ ∀ a, P (String a s)).
  { induction s as [|b s [IHs IHc]]; split; auto. }
  exact (proj1 H).
Qed.

Lemma fromHexChar_is_hex_digit (c : ascii) :
  is_hex_digit c = match hex.fromHexChar c with Some _ => true | None => false end.
Proof. destruct c as [[] [] [] [] [] [] [] []]; reflexivity. Qed.

(** One encoded byte: two digits that decode back to it, neither a colon. *)
Lemma encoded_byte (b : byte) :
  let hi := hex.digit (N.shiftr (Byte.to_N b) 4) in
  let lo := hex.digit (N.land (Byte.to_N b) 15) in
  (∃ x y, hex.fromHexChar hi = Some x ∧ hex.fromHexChar lo = Some y
          ∧ hex.mkbyte x y = b)
  ∧ hi ≠ ":"%char ∧ lo ≠ ":"%char.
Proof.
  destruct b; cbv zeta;
    (split; [eexists _, _; vm_compute; repeat split | split; discriminate]).
Qed.

(** hex.DecodeString (hex.EncodeToString b) gives [b] back, without error. *)
Lemma Decode_Encode (bs : list byte) :
  hex.DecodeString (hex.EncodeToString bs) = (bs, None).
Proof.
  induction bs as [|b bs IH]; [reflexivity|].
  destruct (encoded_byte b) as [(x & y & Hx & Hy & Hb) _].
  cbn [hex.EncodeToString hex.DecodeString].
  rewrite Hx, Hy, IH, Hb. reflexivity.
Qed.

Lemma Encode_no_colon (bs : list byte) :
  ¬ In ":"%char (list_ascii_of_string (hex.EncodeToString bs)).
Proof.
  induction bs as [|b bs IH]; simpl; [tauto|].
  destruct (encoded_byte b) as [_ [Hhi Hlo]].
  intros [H|[H|H]]; [now apply Hhi | now apply Hlo | now apply IH].
Qed.

(** The decoder reports an error exactly on the strings that are not
    valid hex. *)
Lemma Decode_error_iff (s : string) :
  (hex.DecodeString s).2 = None ↔ is_hex s = true.
Proof.
  unfold is_hex. induction s as [|a|a b s IH] using string_pair_ind.
  - simpl. tauto.
  - cbn [hex.DecodeString]. destruct (hex.fromHexChar a); simpl; split;
      discriminate.
  - cbn [hex.DecodeString String.length list_ascii_of_string forallb Nat.even].
    rewrite !fromHexChar_is_hex_digit.
    destruct (hex.fromHexChar a); simpl.
    + destruct (hex.fromHexChar b); simpl.
      * destruct (hex.DecodeString s) as [dst err]. simpl in *. exact IH.
      * rewrite andb_false_r. split; discriminate.
    + rewrite andb_false_r. split; discriminate.
Qed.

(** The decode errors are the two of encoding/hex. *)
Lemma Decode_error_kind (s : string) (e : error) :
  (hex.DecodeString s).2 = Some e →
  e = hexErrLength ∨ ∃ c, e = hexInvalidByteError c.
Proof.
  induction s as [|a|a b s IH] using string_pair_ind;
    cbn [hex.DecodeString].
  - discriminate.
  - destruct (hex.fromHexChar a); simpl; intros [= <-]; eauto.
  - destruct (hex.fromHexChar a); simpl; [|intros [= <-]; eauto].
    destruct (hex.fromHexChar b); simpl; [|intros [= <-]; eauto].
    destruct (hex.DecodeString s) as [dst err]. simpl in *. exact IH.
Qed.

End HexFacts.

(** ** The token engine *)

Section TokenEngine.

(** Verification of [mac ++ ":" ++ hex salt] for a colon-free [mac]: the
    salt is recovered and the token is compared with the one generated
    from it. *)
Lemma validate_shape (mac : string) (salt secret : list byte) :
  ¬ In ":"%char (list_ascii_of_string mac) →
  validateCSRFToken (mac +:+ ":" +:+ hex.EncodeToString salt) secret
  = (String.eqb (mac +:+ ":" +:+ hex.EncodeToString salt)
                (generateCSRFToken secret salt), None).
Proof.
  intros Hmac. unfold validateCSRFToken.
  change (":" +:+ hex.EncodeToString salt)%string
    with (String ":" (hex.EncodeToString salt)).
  assert (Hsep : GoString.Index (mac +:+ String ":" (hex.EncodeToString salt)) ":"
                 = GoString.len mac).
  { unfold GoString.Index. now rewrite index_from_first. }
  pose proof (slice_after_first ":" mac (hex.EncodeToString salt) Hmac) as Hsl.
  rewrite Hsep in *. rewrite Hsl, Decode_Encode.
  destruct (Z.ltb_spec (GoString.len mac) 0) as [Hneg|_];
    [unfold GoString.len in Hneg; lia | reflexivity].
Qed.

(** A token with a 3-byte salt and one with no salt at all, checked by
    evaluation. *)
Example validate_short_salt :
  validateCSRFToken
    "dda6fe43b61f3a3d2ef74f4e7fb3e56ee78c8326:deadbe" (GoString.bytes_of "secret")
  = (true, None).
Proof. vm_compute. reflexivity. Qed.

Example validate_empty_salt :
  validateCSRFToken "fbdb1d1b18aa6c08324b7d64b71fb76370690e1d:" [] = (true, None).
Proof. vm_compute. reflexivity. Qed.

(** Upper-case digits decode, but the token is compared with the
    lower-case one that is generated. *)
Example validate_upper_case :
  validateCSRFToken
    "dda6fe43b61f3a3d2ef74f4e7fb3e56ee78c8326:DEADBE" (GoString.bytes_of "secret")
  = (false, None).
Proof. vm_compute. reflexivity. Qed.

(** C2. For every secret S and every salt R, the token issued with S and R
    verifies under S: validateCSRFToken(generateCSRFToken(S, R), S) is
    (true, nil). *)
Theorem validate_generate (secret salt : list byte) :
  validateCSRFToken (generateCSRFToken secret salt) secret = (true, None).
Proof.
  unfold generateCSRFToken at 1.
  rewrite validate_shape by apply Encode_no_colon.
  fold (generateCSRFToken secret salt). now rewrite String.eqb_refl.
Qed.

(** C9. Verification does not look at the length of the salt: for every
    secret S and every byte sequence R, of 8 bytes or of any other length,
    the string hex(HMAC-SHA1(S, R)) + ":" + hex(R) is accepted with
    (true, nil). *)
Theorem validate_any_salt_length (secret salt : list byte) :
  validateCSRFToken
    (hex.EncodeToString (hmac.Sum secret salt) +:+ ":" +:+ hex.EncodeToString salt)
    secret
  = (true, None).
Proof.
  rewrite validate_shape by apply Encode_no_colon.
  unfold generateCSRFToken. now rewrite String.eqb_refl.
Qed.

(** C5. Verification tells two kinds of bad input apart: a token without
    any ':' gives (false, nil), invalid but no error, while a token whose
    part after the first ':' is not valid hex gives a non-nil decode error
    (one of the two errors of encoding/hex); the two answers differ. *)
Theorem validate_invalid_shapes :
  (∀ (token : string) (secret : list byte),
      ¬ In ":"%char (list_ascii_of_string token) →
      validateCSRFToken token secret = (false, None))
  ∧ (∀ (pre post : string) (secret : list byte),
        ¬ In ":"%char (list_ascii_of_string pre) →
        is_hex post = false →
        ∃ e, validateCSRFToken (pre +:+ ":" +:+ post) secret = (false, Some e)
             ∧ (hex.DecodeString post).2 = Some e
             ∧ (e = hexErrLength ∨ ∃ c, e = hexInvalidByteError c)
             ∧ (false, Some e) ≠ (false, @None error)).
Proof.
  split.
  - intros token secret Hnin. unfold validateCSRFToken, GoString.Index.
    now rewrite index_from_absent.
  - intros pre post secret Hnin Hhex. unfold validateCSRFToken.
    change (":" +:+ post)%string with (String ":" post).
    rewrite slice_after_first by assumption.
    unfold GoString.Index. rewrite index_from_first by assumption.
    destruct (Z.ltb_spec (0 + GoString.len pre) 0) as [Hneg|_];
      [unfold GoString.len in Hneg; lia|].
    destruct (hex.DecodeString post) as [salt [e|]] eqn:Hdec.
    + exists e. repeat split; [|discriminate].
      apply (Decode_error_kind post). now rewrite Hdec.
    + exfalso. assert (H : is_hex post = true)
        by (apply Decode_error_iff; now rewrite Hdec).
      congruence.
Qed.

Lemma validate_invalid_shapes_witness :
  validateCSRFToken "0102030405060708" Sample.secret = (false, None)
  ∧ ∃ e, validateCSRFToken ("4ae1b42c" +:+ ":" +:+ "01zz") Sample.secret
         = (false, Some e)
         ∧ (hex.DecodeString "01zz").2 = Some e
         ∧ (e = hexErrLength ∨ ∃ c, e = hexInvalidByteError c)
         ∧ (false, Some e) ≠ (false, @None error).
Proof.
  split.
  - apply (proj1 validate_invalid_shapes). vm_compute.
    intros H; repeat (destruct H as [H|H]; [discriminate|]); exact H.
  - apply (proj2 validate_invalid_shapes "4ae1b42c" "01zz" Sample.secret).
    + vm_compute.
      intros H; repeat (destruct H as [H|H]; [discriminate|]); exact H.
    + reflexivity.
Defined.

End TokenEngine.

(** ** The CSRF guard *)

Section CSRFGuard.

Variable now : Time.

Lemma safe_method_iff (m : string) : safe_method m = true ↔ In m safe_methods.
Proof.
  unfold safe_method, safe_methods, lessgo.GET, lessgo.HEAD, lessgo.OPTIONS,
    lessgo.TRACE. simpl.
  rewrite !orb_true_iff, !String.eqb_eq. intuition congruence.
Qed.

(** Once the defaults are applied there is an extractor to call. *)
Lemma csrf_defaults_Extractor (config : CSRFConfig.t) :
  is_Some (CSRFConfig.Extractor (csrf_defaults now config)).
Proof. unfold csrf_defaults. simpl. destruct (CSRFConfig.Extractor config); eauto. Qed.

(** Construction succeeds exactly when a secret is given, and then the
    wrapper is the handler of the completed configuration. *)
Lemma CSRFWithConfig_inr (conf : CSRFConfig.t) (mw : lessgo.HandlerFunc → Handler) :
  CSRFWithConfig now conf = inr mw →
  mw = csrf_handler (csrf_defaults now conf)
  ∧ is_Some (CSRFConfig.Secret conf).
Proof.
  unfold CSRFWithConfig. destruct (CSRFConfig.Secret conf); [|discriminate].
  intros [= <-]. eauto.
Qed.

Lemma salt_length (f : nat → byte) (buf : list byte) :
  length (rand.Read (rand.Filled f) buf).1 = length buf.
Proof. simpl. now rewrite length_map, length_seq. Qed.

(** What was issued is in the context and among the cookies. *)
Lemma csrf_issued_holds (config : CSRFConfig.t) (salt : list byte)
    (c : lessgo.Context) :
  let token := generateCSRFToken (bytes (CSRFConfig.Secret config)) salt in
  lessgo.store (csrf_issued config salt c) !! CSRFConfig.ContextKey config
  = Some (lessgo.VString token)
  ∧ lessgo.cookies (csrf_issued config salt c)
    = lessgo.cookies c ++ [csrf_cookie config token]
  ∧ http.Value (csrf_cookie config token) = token
  ∧ http.Name (csrf_cookie config token) = CSRFConfig.CookieName config
  ∧ lessgo.request (csrf_issued config salt c) = lessgo.request c.
Proof.
  cbv zeta. unfold csrf_issued. simpl. rewrite lookup_insert_eq.
  repeat split; unfold csrf_cookie;
    destruct (negb (String.eqb (CSRFConfig.CookiePath config) ""));
    destruct (negb (String.eqb (CSRFConfig.CookieDomain config) ""));
    reflexivity.
Qed.

Section Run.

Variables (config : CSRFConfig.t) (next : lessgo.HandlerFunc) (w : World).

Let secret := bytes (CSRFConfig.Secret config).
Let method := lessgo.Method (lessgo.request (ctx w)).

(** The random source fails: the error comes back and only the read
    has happened. *)
Lemma csrf_run_rand_failed (partial : list byte) (e : error) :
  reader w (reads w) = rand.Failed partial e →
  csrf_handler config next w
  = (Some e, mkWorld (ctx w) (S (reads w)) (reader w) (trace w ++ [EvRandRead])).
Proof.
  intros Hr. unfold csrf_handler, bind, c_Request, generateSalt, rand_Read, ret.
  rewrite Hr. reflexivity.
Qed.

Variable f : nat → byte.
Hypothesis Hfilled : reader w (reads w) = rand.Filled f.

Let salt := map f (seq 0 8).
Let c1 := csrf_issued config salt (ctx w).
Let issued (c : lessgo.Context) (more : list Event) : World :=
  mkWorld c (S (reads w)) (reader w)
          (trace w ++ csrf_issue_trace config salt ++ more).

(** A safe method: the next handler runs on the issued context. *)
Lemma csrf_run_safe :
  safe_method method = true →
  csrf_handler config next w = ((next c1).1, issued (next c1).2 [EvNext]).
Proof.
  intros Hsafe.
  unfold csrf_handler, bind, c_Request, generateSalt, rand_Read, ret, c_Set,
    c_SetCookie, on_ctx.
  rewrite Hfilled. cbn -[generateCSRFToken csrf_cookie safe_method].
  fold method. rewrite Hsafe.
  fold salt secret. unfold issued, csrf_issue_trace, c1, csrf_issued.
  fold secret.
  destruct (next _) as [r c']. simpl. rewrite <- !app_assoc. reflexivity.
Qed.

(** Any other method: the extractor runs on the issued context, then
    the presented token is verified. *)
Lemma csrf_run_unsafe :
  safe_method method = false →
  csrf_handler config next w
  = let '((token, err), c2) := csrf_Extractor config c1 in
    match err with
    | Some e => (Some e, issued c2 [EvExtractor])
    | None =>
        match validateCSRFToken token secret with
        | (_, Some e) => (Some e, issued c2 [EvExtractor])
        | (false, None) =>
            (Some (NewHTTPError StatusForbidden "invalid csrf token"),
             issued c2 [EvExtractor])
        | (true, None) => ((next c2).1, issued (next c2).2 [EvExtractor; EvNext])
        end
    end.
Proof.
  intros Hsafe.
  unfold csrf_handler, bind, c_Request, generateSalt, rand_Read, ret, c_Set,
    c_SetCookie, on_ctx.
  rewrite Hfilled.
  cbn -[generateCSRFToken csrf_cookie safe_method validateCSRFToken].
  fold method. rewrite Hsafe.
  fold salt secret. unfold issued, csrf_issue_trace, c1, csrf_issued.
  fold secret.
  destruct (csrf_Extractor config _) as [[token [e|]] c2];
    cbn -[generateCSRFToken csrf_cookie validateCSRFToken].
  - rewrite <- !app_assoc. reflexivity.
  - destruct (validateCSRFToken token secret) as [[|] [e|]];
      cbn -[generateCSRFToken csrf_cookie];
      try destruct (next c2) as [r c3];
      cbn -[generateCSRFToken csrf_cookie]; rewrite <- !app_assoc; reflexivity.
Qed.

End Run.

End CSRFGuard.

(** ** The CSRF guard, request by request *)

Section CSRFRequests.

Variable now : Time.
Variables (conf : CSRFConfig.t) (mw : lessgo.HandlerFunc → Handler).
Hypothesis Hbuilt : CSRFWithConfig now conf = inr mw.
Variables (next : lessgo.HandlerFunc) (w : World).

Let config := csrf_defaults now conf.
Let method := lessgo.Method (lessgo.request (ctx w)).


(** C4. For every request with a state-changing method, if the token the
    extractor returned fails verification (false, without error), the
    guard answers 403 Forbidden and the next handler is not called. *)
Theorem csrf_invalid_token_forbidden (f : nat → byte) (presented : string)
    (c2 : lessgo.Context) :
  ¬ In method safe_methods →
  reader w (reads w) = rand.Filled f →
  let salt := map f (seq 0 8) in
  csrf_Extractor config (csrf_issued config salt (ctx w)) = ((presented, None), c2) →
  validateCSRFToken presented (bytes (CSRFConfig.Secret config)) = (false, None) →
  mw next w
  = (Some (HTTPError 403 "invalid csrf token"),
     mkWorld c2 (S (reads w)) (reader w)
             (trace w ++ csrf_issue_trace config salt ++ [EvExtractor]))
  ∧ ¬ In EvNext (csrf_issue_trace config salt ++ [EvExtractor]).
Proof.
  intros Hunsafe Hfilled salt Hex Hval.
  destruct (CSRFWithConfig_inr now conf mw Hbuilt) as [Hmw _].
  rewrite !Hmw. change (csrf_defaults now conf) with config. split.
  - rewrite (csrf_run_unsafe config next w f Hfilled).
    + fold salt. rewrite Hex, Hval. reflexivity.
    + destruct (safe_method _) eqn:E; [|reflexivity].
      exfalso. apply Hunsafe. now apply safe_method_iff.
  - simpl. intros [H|[H|[H|[H|[]]]]]; discriminate.
Qed.

(** C8. If the random source fails while the salt is generated, the guard
    returns that error before anything is stored in the context and
    before any cookie is set: context and cookies are as they were. *)
Theorem csrf_rand_failure_leaves_context (partial : list byte) (e : error) :
  reader w (reads w) = rand.Failed partial e →
  (mw next w).1 = Some e
  ∧ ctx (mw next w).2 = ctx w
  ∧ lessgo.store (ctx (mw next w).2) = lessgo.store (ctx w)
  ∧ lessgo.cookies (ctx (mw next w).2) = lessgo.cookies (ctx w)
  ∧ trace (mw next w).2 = trace w ++ [EvRandRead].
Proof.
  intros Hfailed. destruct (CSRFWithConfig_inr now conf mw Hbuilt) as [Hmw _].
  rewrite !Hmw. change (csrf_defaults now conf) with config.
  rewrite (csrf_run_rand_failed _ _ _ partial e Hfailed). simpl. auto.
Qed.

(** C10. On every request on which the salt is generated without error,
    whatever the method and whatever the outcome, the token just issued
    is stored under the context key and sent as a cookie before anything
    else happens: the store and the cookie come first in the calls of the
    guard, the extractor and the next handler only ever see a context
    that went through them, and a rejected request ends in the context
    the extractor left. *)
Theorem csrf_token_issued_before_outcome (f : nat → byte) :
  reader w (reads w) = rand.Filled f →
  let salt := map f (seq 0 8) in
  let token := generateCSRFToken (bytes (CSRFConfig.Secret config)) salt in
  let cookie := csrf_cookie config token in
  let c1 := csrf_issued config salt (ctx w) in
  let c2 := (csrf_Extractor config c1).2 in
  lessgo.store c1 !! CSRFConfig.ContextKey config = Some (lessgo.VString token)
  ∧ lessgo.cookies c1 = lessgo.cookies (ctx w) ++ [cookie]
  ∧ http.Value cookie = token
  ∧ ∃ more,
      trace (mw next w).2
      = trace w ++ [EvRandRead;
                    EvSet (CSRFConfig.ContextKey config) (lessgo.VString token);
                    EvSetCookie cookie] ++ more
      ∧ ((more = [EvNext] ∧ In method safe_methods
          ∧ (mw next w).1 = (next c1).1 ∧ ctx (mw next w).2 = (next c1).2)
         ∨ (more = [EvExtractor] ∧ ¬ In method safe_methods
            ∧ is_Some (mw next w).1 ∧ ctx (mw next w).2 = c2)
         ∨ (more = [EvExtractor; EvNext] ∧ ¬ In method safe_methods
            ∧ (mw next w).1 = (next c2).1 ∧ ctx (mw next w).2 = (next c2).2)).
Proof.
  intros Hfilled salt token cookie c1 c2.
  destruct (CSRFWithConfig_inr now conf mw Hbuilt) as [Hmw _].
  rewrite !Hmw. change (csrf_defaults now conf) with config.
  destruct (csrf_issued_holds config salt (ctx w)) as (Hstore & Hcookies & Hvalue & _).
  repeat split; try assumption.
  destruct (safe_method method) eqn:Hsafe.
  - exists [EvNext]. rewrite (csrf_run_safe config next w f Hfilled Hsafe).
    split; [reflexivity|]. left. repeat split. now apply safe_method_iff.
  - assert (Hunsafe : ¬ In method safe_methods)
      by (rewrite <- safe_method_iff; fold method; congruence).
    rewrite (csrf_run_unsafe config next w f Hfilled Hsafe).
    fold salt c1. subst c2.
    destruct (csrf_Extractor config c1) as [[presented [e|]] c2'].
    + exists [EvExtractor]. split; [reflexivity|]. right; left. simpl. eauto.
    + destruct (validateCSRFToken presented _) as [[|] [e|]].
      * exists [EvExtractor]. split; [reflexivity|]. right; left. simpl. eauto.
      * exists [EvExtractor; EvNext]. split; [reflexivity|]. right; right.
        simpl. eauto.
      * exists [EvExtractor]. split; [reflexivity|]. right; left. simpl. eauto.
      * exists [EvExtractor]. split; [reflexivity|]. right; left. simpl. eauto.
Qed.

(** When the extractor fails on a state-changing request, its error is
    returned as it is. *)
Lemma csrf_extractor_error_returned (f : nat → byte) (e : error) (t : string)
    (c2 : lessgo.Context) :
  ¬ In method safe_methods →
  reader w (reads w) = rand.Filled f →
  csrf_Extractor config (csrf_issued config (map f (seq 0 8)) (ctx w))
  = ((t, Some e), c2) →
  (mw next w).1 = Some e.
Proof.
  intros Hunsafe Hfilled Hex.
  destruct (CSRFWithConfig_inr now conf mw Hbuilt) as [Hmw _].
  rewrite !Hmw. change (csrf_defaults now conf) with config.
  rewrite (csrf_run_unsafe config next w f Hfilled).
  - rewrite Hex. reflexivity.
  - destruct (safe_method _) eqn:E; [|reflexivity].
    exfalso. apply Hunsafe. now apply safe_method_iff.
Qed.

End CSRFRequests.

(** ** The JWT guard *)

Section JWTGuard.

Context `{lib : jwt.Library}.

Lemma JWTWithConfig_inr (conf : JWTConfig.t) (mw : lessgo.HandlerFunc → Handler) :
  JWTWithConfig conf = inr mw →
  mw = jwt_handler (jwt_defaults conf)
  ∧ JWTConfig.SigningKey conf ≠ EmptyString.
Proof.
  unfold JWTWithConfig, GoString.len.
  destruct (JWTConfig.SigningKey conf) as [|a k]; simpl; [discriminate|].
  intros [= <-]. split; [reflexivity | discriminate].
Qed.

(** The three exits of the handler. *)
Lemma jwt_run (config : JWTConfig.t) (next : lessgo.HandlerFunc) (w : World) :
  jwt_handler config next w
  = let '((auth, err), c1) := jwt_Extractor config (ctx w) in
    let w1 := mkWorld c1 (reads w) (reader w) (trace w ++ [EvExtractor]) in
    match err with
    | Some e => (Some (NewHTTPError StatusBadRequest (Error e)), w1)
    | None =>
        match jwt.Parse auth (jwt_keyFunc config) with
        | inr token =>
            if jwt.Valid token then
              let c2 := lessgo.Set_ (JWTConfig.ContextKey config)
                                    (lessgo.VToken token) c1 in
              ((next c2).1,
               mkWorld (next c2).2 (reads w) (reader w)
                 (trace w ++ [EvExtractor;
                              EvSet (JWTConfig.ContextKey config) (lessgo.VToken token);
                              EvNext]))
            else (Some ErrUnauthorized, w1)
        | inl _ => (Some ErrUnauthorized, w1)
        end
    end.
Proof.
  unfold jwt_handler, bind, on_ctx, ret, c_Set.
  destruct (jwt_Extractor config (ctx w)) as [[auth [e|]] c1]; [reflexivity|].
  destruct (jwt.Parse auth (jwt_keyFunc config)) as [e|token]; [reflexivity|].
  destruct (jwt.Valid token); [|reflexivity].
  cbn. destruct (next _) as [r c3]. simpl. rewrite <- !app_assoc. reflexivity.
Qed.

(** The key function refuses a token whose method is not the expected
    one, and [Parse] then fails without looking at the signature. *)
Lemma Parse_algorithm_mismatch (config : JWTConfig.t) (auth : string)
    (t : jwt.Token) :
  jwt.unverified auth = inr t →
  jwt.Alg (jwt.Method t) ≠ JWTConfig.SigningMethod config →
  ∃ e, jwt.Parse auth (jwt_keyFunc config) = inl e.
Proof.
  intros Hun Hne. unfold jwt.Parse. rewrite Hun. unfold jwt_keyFunc.
  destruct (String.eqb_spec (jwt.Alg (jwt.Method t))
                            (JWTConfig.SigningMethod config)) as [E|_];
    [contradiction|]. simpl. eauto.
Qed.

(** C1. For every token whose declared signing algorithm differs from the
    expected one (SigningMethod, after defaults), verification fails and
    the guard answers 401 Unauthorized without calling the next handler,
    whatever the signature check of that algorithm would say; the
    algorithm names are compared exactly. *)
Theorem jwt_algorithm_mismatch_unauthorized (conf : JWTConfig.t)
    (mw : lessgo.HandlerFunc → Handler) (next : lessgo.HandlerFunc) (w : World)
    (auth : string) (c1 : lessgo.Context) (t : jwt.Token) :
  JWTWithConfig conf = inr mw →
  jwt_Extractor (jwt_defaults conf) (ctx w) = ((auth, None), c1) →
  jwt.unverified auth = inr t →
  jwt.Alg (jwt.Method t) ≠ JWTConfig.SigningMethod (jwt_defaults conf) →
  (∃ e, jwt.Parse auth (jwt_keyFunc (jwt_defaults conf)) = inl e)
  ∧ mw next w
    = (Some (HTTPError 401 "Unauthorized"),
       mkWorld c1 (reads w) (reader w) (trace w ++ [EvExtractor])).
Proof.
  intros Hbuilt Hex Hun Hne.
  destruct (JWTWithConfig_inr conf mw Hbuilt) as [-> _].
  destruct (Parse_algorithm_mismatch _ _ _ Hun Hne) as [e He].
  split; [eauto|]. rewrite jwt_run, Hex, He. reflexivity.
Qed.

(** In the JWT guard an error of the extractor becomes a 400. *)
Lemma jwt_extractor_error_bad_request (conf : JWTConfig.t)
    (mw : lessgo.HandlerFunc → Handler) (next : lessgo.HandlerFunc) (w : World)
    (t : string) (e : error) (c1 : lessgo.Context) :
  JWTWithConfig conf = inr mw →
  jwt_Extractor (jwt_defaults conf) (ctx w) = ((t, Some e), c1) →
  (mw next w).1 = Some (HTTPError 400 (Error e)).
Proof.
  intros Hbuilt Hex. destruct (JWTWithConfig_inr conf mw Hbuilt) as [-> _].
  rewrite jwt_run, Hex. reflexivity.
Qed.

End JWTGuard.

(** ** The bearer extractor *)

Section Bearer.

(** [JWTFromHeader] answers a token exactly for the headers made of
    "Bearer", one more byte of any value, and a non-empty rest, which is
    the token. *)
Lemma JWTFromHeader_accepts (c : lessgo.Context) (token : string) :
  (JWTFromHeader c).1 = (token, None)
  ↔ ∃ sep : ascii,
      lessgo.Header_Get (lessgo.request c) lessgo.HeaderAuthorization
      = ("Bearer" +:+ String sep token)%string
      ∧ token ≠ EmptyString.
Proof.
  unfold JWTFromHeader.
  set (auth := lessgo.Header_Get (lessgo.request c) lessgo.HeaderAuthorization).
  clearbody auth. split.
  - destruct auth as [|a1 [|a2 [|a3 [|a4 [|a5 [|a6 [|a7 [|a8 rest]]]]]]]];
      try (simpl; discriminate).
    unfold GoString.slice_to, GoString.slice_from, GoString.len, bearer.
    change (String.length "Bearer") with 6%nat.
    change (Z.to_nat (Z.of_nat 6 + 1)) with 7%nat.
    change (Z.to_nat (Z.of_nat 6)) with 6%nat.
    cbn [GoString.take GoString.drop].
    destruct (String.eqb_spec (String a1 (String a2 (String a3 (String a4
                 (String a5 (String a6 EmptyString)))))) "Bearer") as [E|E].
    + injection E as -> -> -> -> -> ->.
      destruct (_ <? _); simpl; [|discriminate].
      intros [= <-]. exists a7. split; [reflexivity | discriminate].
    + rewrite andb_false_r. simpl. discriminate.
  - intros (sep & -> & Hne). destruct token as [|a rest]; [contradiction|].
    unfold GoString.slice_to, GoString.slice_from, GoString.len, bearer.
    change (String.length "Bearer") with 6%nat.
    change (Z.to_nat (Z.of_nat 6 + 1)) with 7%nat.
    change (Z.to_nat (Z.of_nat 6)) with 6%nat.
    change ("Bearer" +:+ String sep (String a rest))%string
      with (String "B" (String "e" (String "a" (String "r" (String "e" (String "r"
            (String sep (String a rest)))))))).
    cbn [GoString.take GoString.drop String.length].
    rewrite String.eqb_refl, andb_true_r.
    destruct (Z.ltb_spec (Z.of_nat 6 + 1) (Z.of_nat (S (S (S (S (S (S (S (S
                (String.length rest))))))))))) as [_|Hlt];
      [reflexivity | lia].
Qed.

(** C6, at the header "Bearertoken". The extractor takes "Bearer", skips
    the next byte without looking at it and answers the rest, "oken",
    without error, although the header is not "Bearer", a separator and a
    token. *)
Theorem JWTFromHeader_skips_unchecked_byte :
  lessgo.Header_Get (lessgo.request SampleRuns.glued) lessgo.HeaderAuthorization
  = "Bearertoken"%string
  ∧ JWTFromHeader SampleRuns.glued = (("oken"%string, None), SampleRuns.glued)
  ∧ ¬ ∃ token, bearer_shape "Bearertoken" token.
Proof.
  split; [reflexivity|]. split; [reflexivity|].
  intros (token & H & _). discriminate H.
Qed.

End Bearer.

(** ** The guards on sample requests *)

Section Samples.

Import Sample SampleRuns.

Lemma not_in_safe_methods_POST : ¬ In "POST"%string safe_methods.
Proof. simpl. intros [H|[H|[H|[H|[]]]]]; discriminate. Qed.



Lemma csrf_invalid_token_forbidden_witness :
  (csrf_handler csrf_default ok post_world).1
  = Some (HTTPError 403 "invalid csrf token")
  ∧ ¬ In EvNext (csrf_issue_trace csrf_default (map salt_of (seq 0 8))
                 ++ [EvExtractor]).
Proof.
  destruct (csrf_invalid_token_forbidden 0 (csrf_config None)
              (csrf_handler csrf_default) eq_refl ok post_world salt_of
              EmptyString
              (csrf_issued csrf_default (map salt_of (seq 0 8)) (ctx post_world))
              not_in_safe_methods_POST eq_refl eq_refl eq_refl)
    as [Hrun Hnext].
  split; [rewrite Hrun; reflexivity | exact Hnext].
Defined.

Lemma csrf_rand_failure_leaves_context_witness :
  (csrf_handler csrf_default ok get_world_no_entropy).1
  = Some (ioError "unexpected EOF")
  ∧ ctx (csrf_handler csrf_default ok get_world_no_entropy).2
    = ctx get_world_no_entropy
  ∧ lessgo.store (ctx (csrf_handler csrf_default ok get_world_no_entropy).2)
    = lessgo.store (ctx get_world_no_entropy)
  ∧ lessgo.cookies (ctx (csrf_handler csrf_default ok get_world_no_entropy).2)
    = lessgo.cookies (ctx get_world_no_entropy)
  ∧ trace (csrf_handler csrf_default ok get_world_no_entropy).2
    = trace get_world_no_entropy ++ [EvRandRead].
Proof.
  exact (csrf_rand_failure_leaves_context 0 (csrf_config None)
           (csrf_handler csrf_default) eq_refl ok get_world_no_entropy
           [] (ioError "unexpected EOF") eq_refl).
Defined.

Lemma csrf_token_issued_before_outcome_witness :
  let token := generateCSRFToken secret (map salt_of (seq 0 8)) in
  let c1 := csrf_issued csrf_default (map salt_of (seq 0 8)) (ctx post_world) in
  lessgo.store c1 !! "csrf"%string = Some (lessgo.VString token)
  ∧ lessgo.cookies c1 = [csrf_cookie csrf_default token]
  ∧ ∃ more,
      trace (csrf_handler csrf_default ok post_world).2
      = [EvRandRead; EvSet "csrf" (lessgo.VString token);
         EvSetCookie (csrf_cookie csrf_default token)] ++ more.
Proof.
  destruct (csrf_token_issued_before_outcome 0 (csrf_config None)
              (csrf_handler csrf_default) eq_refl ok post_world salt_of eq_refl)
    as (Hstore & Hcookies & _ & more & Htrace & _).
  cbv zeta. split; [exact Hstore|]. split; [exact Hcookies|].
  exists more. exact Htrace.
Defined.

(** C7, on a POST without the form field when the token is to be read
    from the form. The extractor fails, and the CSRF guard returns its
    error as it is, a plain error without any status; it is not a 400,
    which is what the JWT guard makes of an extractor error
    ([jwt_extractor_error_bad_request]). *)
Theorem csrf_extractor_error_not_bad_request :
  CSRFWithConfig 0 (csrf_config (Some (CSRFTokenFromForm "csrf")))
  = inr (csrf_handler csrf_form)
  ∧ (csrf_Extractor csrf_form
       (csrf_issued csrf_form (map salt_of (seq 0 8)) (ctx post_world))).1
    = (EmptyString, Some (errorString "empty csrf token in form param"))
  ∧ (csrf_handler csrf_form ok post_world).1
    = Some (errorString "empty csrf token in form param")
  ∧ ¬ is_bad_request (csrf_handler csrf_form ok post_world).1.
Proof.
  assert (Hrun : (csrf_handler csrf_form ok post_world).1
                 = Some (errorString "empty csrf token in form param")).
  { apply (csrf_extractor_error_returned 0
             (csrf_config (Some (CSRFTokenFromForm "csrf")))
             (csrf_handler csrf_form) eq_refl ok post_world salt_of _
             EmptyString
             (csrf_issued csrf_form (map salt_of (seq 0 8)) (ctx post_world))
             not_in_safe_methods_POST eq_refl).
    reflexivity. }
  split; [reflexivity|]. split; [reflexivity|]. split; [exact Hrun|].
  rewrite Hrun. intros [msg H]. discriminate H.
Qed.

Lemma jwt_algorithm_mismatch_unauthorized_witness :
  (∃ e, jwt.Parse "none.claims.sig" (jwt_keyFunc (jwt_defaults jwt_config)) = inl e)
  ∧ jwt_handler (jwt_defaults jwt_config) ok none_world
    = (Some (HTTPError 401 "Unauthorized"),
       mkWorld (ctx none_world) 0 counting [EvExtractor]).
Proof.
  apply (jwt_algorithm_mismatch_unauthorized jwt_config
           (jwt_handler (jwt_defaults jwt_config)) ok none_world
           "none.claims.sig" (ctx none_world)
           (jwt.mkToken "none.claims.sig" accept_all
                        {[ "alg"%string := "none"%string ]} ∅ EmptyString false)).
  - reflexivity.
  - reflexivity.
  - reflexivity.
  - simpl. discriminate.
Defined.

(** The same token passes once "none" is the expected algorithm: the
    rejection above is due to the algorithm alone. *)
Example jwt_none_expected :
  (jwt_handler (jwt_defaults (JWTConfig.mk "k" "none" "" None)) ok none_world).1
  = None.
Proof. vm_compute. reflexivity. Qed.

(** A token of the expected algorithm with a good signature is stored
    under the context key and the next handler runs; signed with another
    key it is rejected. *)
Example jwt_valid_token_forwarded :
  let w := world (request "GET"
             [("Authorization",
               "Bearer HS1.claims.d7c71dc762014c37d8cbae00ec00e65a27b59c16")] [])%string
             counting in
  let out := jwt_handler (jwt_defaults (JWTConfig.mk "k" "HS1" "" None)) ok w in
  out.1 = None
  ∧ match lessgo.store (ctx out.2) !! "user"%string with
    | Some (lessgo.VToken t) => jwt.Valid t
    | _ => false
    end = true
  ∧ match trace out.2 with
    | [EvExtractor; EvSet key (lessgo.VToken t); EvNext] =>
        String.eqb key "user" && jwt.Valid t
    | _ => false
    end = true.
Proof. vm_compute. repeat split. Qed.

Example jwt_wrong_key_unauthorized :
  let w := world (request "GET"
             [("Authorization",
               "Bearer HS1.claims.f89f967347da81daa4cd08ac58b7d184bc4dd719")] [])%string
             counting in
  (jwt_handler (jwt_defaults (JWTConfig.mk "k" "HS1" "" None)) ok w).1
  = Some (HTTPError 401 "Unauthorized").
Proof. vm_compute. reflexivity. Qed.

(** The token of a GET, sent back unchanged in the header of a POST, is
    accepted; with one salt digit changed it is refused. *)
Example csrf_round_trip :
  let post t := world (request "POST" [("X-CSRF-Token", t)] [])%string counting in
  (csrf_handler csrf_default ok
     (post "4ae1b42c9d6490e45d7a87b52ca8efec0051ecb1:0102030405060708"%string)).1
  = None
  ∧ (csrf_handler csrf_default ok
       (post "4ae1b42c9d6490e45d7a87b52ca8efec0051ecb1:0102030405060709"%string)).1
    = Some (HTTPError 403 "invalid csrf token").
Proof. vm_compute. split; reflexivity. Qed.

End Samples.

(** ** The shape of a token *)

Section TokenShape.

Lemma be_bytes_length (n : nat) (x : Z) : length (sha1.be_bytes n x) = n.
Proof. induction n as [|n IH]; simpl; [reflexivity | now rewrite IH]. Qed.

(** A SHA-1 digest has 20 bytes, and so has an HMAC-SHA1 tag. *)
Lemma sha1_Sum_length (msg : list byte) : length (sha1.Sum msg) = 20%nat.
Proof.
  unfold sha1.Sum. destruct (sha1.blocks _ _ _) as [a b c d e].
  rewrite !length_app, !be_bytes_length. reflexivity.
Qed.

Lemma hmac_Sum_length (key msg : list byte) : length (hmac.Sum key msg) = 20%nat.
Proof. unfold hmac.Sum. apply sha1_Sum_length. Qed.

Lemma Encode_length (bs : list byte) :
  String.length (hex.EncodeToString bs) = (2 * length bs)%nat.
Proof. induction bs as [|b bs IH]; simpl; [reflexivity | rewrite IH; lia]. Qed.

(** Two colon-free strings that are followed by a colon in the same string
    are equal. *)
Lemma colon_free_prefix_unique (a b x y : string) :
  ¬ In ":"%char (list_ascii_of_string a) →
  ¬ In ":"%char (list_ascii_of_string b) →
  (a +:+ String ":" x)%string = (b +:+ String ":" y)%string →
  a = b ∧ x = y.
Proof.
  revert b. induction a as [|c a IH]; intros [|d b] Ha Hb;
    rewrite ?append_nil, ?append_cons; intros Heq.
  - now injection Heq as ->.
  - injection Heq as <- _. exfalso. apply Hb. now left.
  - injection Heq as -> _. exfalso. apply Ha. now left.
  - injection Heq as -> Heq. simpl in Ha, Hb.
    destruct (IH b) as [-> ->]; auto.
Qed.

(** X2. A token is 40 hex digits, a colon and two hex digits per byte of
    salt: its length is 41 + 2 * len(salt), and its first colon, where
    verification splits it, is at offset 40. *)
Theorem generateCSRFToken_layout (secret salt : list byte) :
  GoString.len (generateCSRFToken secret salt) = 41 + 2 * Z.of_nat (length salt)
  ∧ GoString.Index (generateCSRFToken secret salt) ":" = 40
  ∧ GoString.slice_to (generateCSRFToken secret salt) 40
    = hex.EncodeToString (hmac.Sum secret salt)
  ∧ GoString.slice_from (generateCSRFToken secret salt) 41
    = hex.EncodeToString salt.
Proof.
  unfold generateCSRFToken.
  change (":" +:+ hex.EncodeToString salt)%string
    with (String ":" (hex.EncodeToString salt)).
  set (mac := hex.EncodeToString (hmac.Sum secret salt)).
  assert (Hmac : String.length mac = 40%nat)
    by (unfold mac; rewrite Encode_length, hmac_Sum_length; reflexivity).
  assert (Hfree : ¬ In ":"%char (list_ascii_of_string mac))
    by apply Encode_no_colon.
  assert (Hidx : GoString.Index (mac +:+ String ":" (hex.EncodeToString salt)) ":"
                 = 40).
  { unfold GoString.Index. rewrite index_from_first by assumption.
    unfold GoString.len. rewrite Hmac. reflexivity. }
  repeat split.
  - unfold GoString.len. rewrite length_append. simpl.
    rewrite Hmac, Encode_length. lia.
  - exact Hidx.
  - unfold GoString.slice_to. change (Z.to_nat 40) with 40%nat. rewrite <- Hmac.
    clear. induction mac as [|c mac IH]; [reflexivity|].
    rewrite append_cons. simpl. now rewrite IH.
  - pose proof (slice_after_first ":" mac (hex.EncodeToString salt) Hfree) as H.
    rewrite Hidx in H. exact H.
Qed.

(** X3. The salt can be read back from a token: two tokens that are equal
    were made from the same salt, whatever the secrets. *)
Theorem generateCSRFToken_salt_unique (secret1 secret2 salt1 salt2 : list byte) :
  generateCSRFToken secret1 salt1 = generateCSRFToken secret2 salt2 →
  salt1 = salt2.
Proof.
  unfold generateCSRFToken.
  change (":" +:+ hex.EncodeToString salt1)%string
    with (String ":" (hex.EncodeToString salt1)).
  change (":" +:+ hex.EncodeToString salt2)%string
    with (String ":" (hex.EncodeToString salt2)).
  intros Heq.
  apply colon_free_prefix_unique in Heq as [_ Hsalt]; try apply Encode_no_colon.
  apply (f_equal hex.DecodeString) in Hsalt. rewrite !Decode_Encode in Hsalt.
  now injection Hsalt.
Qed.

Lemma generateCSRFToken_salt_unique_witness :
  [x01; x02] = [x01; x02].
Proof.
  apply (generateCSRFToken_salt_unique Sample.secret Sample.secret
           [x01; x02] [x01; x02]).
  reflexivity.
Defined.

(** X1. Verification answers (true, nil) exactly on the tokens that
    generateCSRFToken makes under the secret, for some salt; and it never
    answers true together with an error. *)
Theorem validate_accepts_generated_only (token : string) (secret : list byte) :
  (validateCSRFToken token secret = (true, None)
   ↔ ∃ salt, token = generateCSRFToken secret salt)
  ∧ ∀ e, validateCSRFToken token secret ≠ (true, Some e).
Proof.
  split; [split|].
  - unfold validateCSRFToken. destruct (_ <? 0); [discriminate|].
    destruct (hex.DecodeString _) as [salt [e|]]; [discriminate|].
    intros [= H]. exists salt. now apply String.eqb_eq.
  - intros [salt ->]. unfold generateCSRFToken at 1.
    rewrite validate_shape by apply Encode_no_colon.
    fold (generateCSRFToken secret salt). now rewrite String.eqb_refl.
  - intros e. unfold validateCSRFToken. destruct (_ <? 0); [discriminate|].
    destruct (hex.DecodeString _) as [salt [e'|]]; discriminate.
Qed.

(** X4. A token whose salt half is well formed but whose first half is not
    the MAC of that salt is refused with (false, nil), whatever colon-free
    string stands in its place. *)
Theorem validate_wrong_mac_refused (mac : string) (secret salt : list byte) :
  ¬ In ":"%char (list_ascii_of_string mac) →
  mac ≠ hex.EncodeToString (hmac.Sum secret salt) →
  validateCSRFToken (mac +:+ ":" +:+ hex.EncodeToString salt) secret = (false, None).
Proof.
  intros Hfree Hne. rewrite validate_shape by assumption.
  destruct (String.eqb_spec (mac +:+ ":" +:+ hex.EncodeToString salt)
                            (generateCSRFToken secret salt)) as [Heq|_];
    [|reflexivity].
  exfalso. apply Hne. unfold generateCSRFToken in Heq.
  change (":" +:+ hex.EncodeToString salt)%string
    with (String ":" (hex.EncodeToString salt)) in Heq.
  apply colon_free_prefix_unique in Heq as [-> _];
    [reflexivity | assumption | apply Encode_no_colon].
Qed.

Lemma validate_wrong_mac_refused_witness :
  validateCSRFToken
    ("0000000000000000000000000000000000000000" +:+ ":"
     +:+ hex.EncodeToString [x01; x02])
    Sample.secret
  = (false, None).
Proof.
  apply (validate_wrong_mac_refused
           "0000000000000000000000000000000000000000" Sample.secret [x01; x02]).
  - vm_compute. intros H; repeat (destruct H as [H|H]; [discriminate|]); exact H.
  - vm_compute. discriminate.
Defined.

End TokenShape.

(** ** Configuration *)

Section Configuration.

Variable now : Time.

Lemma eqb_empty_false (s : string) : s ≠ EmptyString → String.eqb s "" = false.
Proof. intros H. now apply String.eqb_neq. Qed.

(** X5. The cookie carries the configured attributes and the token, all of
    them in every case: the two tests on an empty path and an empty domain
    change nothing. *)
Theorem csrf_cookie_attributes (config : CSRFConfig.t) (token : string) :
  csrf_cookie config token
  = http.mkCookie (CSRFConfig.CookieName config) token
                  (CSRFConfig.CookiePath config) (CSRFConfig.CookieDomain config)
                  (CSRFConfig.CookieExpires config) (CSRFConfig.CookieSecure config)
                  (CSRFConfig.CookieHTTPOnly config).
Proof.
  unfold csrf_cookie.
  destruct (String.eqb_spec (CSRFConfig.CookiePath config) "") as [->|_];
    destruct (String.eqb_spec (CSRFConfig.CookieDomain config) "") as [->|_];
    reflexivity.
Qed.

(** X6. Building the CSRF guard panics exactly when the secret is nil (an
    empty secret is taken). Otherwise the handler runs with a configuration
    that keeps every field that was set and has a context key, a cookie
    name and an extractor; what was unset is "csrf", "csrf" and the
    X-CSRF-Token header, and an unset expiry is 24 hours after the package
    was initialised. Applying the defaults again changes nothing. *)
Theorem CSRFWithConfig_defaults (conf : CSRFConfig.t) :
  let config := csrf_defaults now conf in
  (CSRFConfig.Secret conf = None
   ↔ CSRFWithConfig now conf = inl "csrf secret must be provided"%string)
  ∧ (is_Some (CSRFConfig.Secret conf)
     ↔ CSRFWithConfig now conf = inr (csrf_handler config))
  ∧ CSRFConfig.Secret config = CSRFConfig.Secret conf
  ∧ CSRFConfig.ContextKey config
    = (if decide (CSRFConfig.ContextKey conf = EmptyString) then "csrf"%string
       else CSRFConfig.ContextKey conf)
  ∧ CSRFConfig.CookieName config
    = (if decide (CSRFConfig.CookieName conf = EmptyString) then "csrf"%string
       else CSRFConfig.CookieName conf)
  ∧ CSRFConfig.CookieExpires config
    = (if decide (CSRFConfig.CookieExpires conf = 0) then now + 24 * Hour
       else CSRFConfig.CookieExpires conf)
  ∧ csrf_Extractor config
    = default (CSRFTokenFromHeader "X-CSRF-Token") (CSRFConfig.Extractor conf)
  ∧ CSRFConfig.ContextKey config ≠ EmptyString
  ∧ CSRFConfig.CookieName config ≠ EmptyString
  ∧ is_Some (CSRFConfig.Extractor config)
  ∧ CSRFConfig.CookieDomain config = CSRFConfig.CookieDomain conf
  ∧ CSRFConfig.CookiePath config = CSRFConfig.CookiePath conf
  ∧ CSRFConfig.CookieSecure config = CSRFConfig.CookieSecure conf
  ∧ CSRFConfig.CookieHTTPOnly config = CSRFConfig.CookieHTTPOnly conf
  ∧ csrf_defaults now config = config.
Proof.
  destruct conf as [secret key ex name domain path expires secure httponly].
  cbv zeta. unfold CSRFWithConfig, csrf_defaults, csrf_Extractor, IsZero. simpl.
  repeat split.
  - intros ->. reflexivity.
  - destruct secret; [discriminate | reflexivity].
  - intros [s ->]. reflexivity.
  - destruct secret; [eauto | discriminate].
  - destruct (String.eqb_spec key ""); case_decide; congruence.
  - destruct (String.eqb_spec name ""); case_decide; congruence.
  - destruct (Z.eqb_spec expires 0); case_decide; congruence.
  - destruct ex; reflexivity.
  - destruct (String.eqb_spec key ""); [discriminate | assumption].
  - destruct (String.eqb_spec name ""); [discriminate | assumption].
  - destruct ex; eauto.
  - f_equal.
    + destruct (String.eqb_spec key "") as [->|Hk]; [reflexivity|].
      now rewrite eqb_empty_false.
    + destruct ex; reflexivity.
    + destruct (String.eqb_spec name "") as [->|Hn]; [reflexivity|].
      now rewrite eqb_empty_false.
    + destruct (Z.eqb_spec expires 0) as [->|He].
      * destruct (now + 24 * Hour =? 0); reflexivity.
      * destruct (Z.eqb_spec expires 0); [contradiction | reflexivity].
Qed.

End Configuration.

Section JWTConfiguration.

Context `{lib : jwt.Library}.

(** X7. Building the JWT guard panics exactly when the signing key is
    empty. Otherwise the handler runs with the key as given, an expected
    algorithm that is the one set or HS256, a context key that is the one
    set or "user", and the extractor set or JWTFromHeader. Applying the
    defaults again changes nothing. *)
Theorem JWTWithConfig_defaults (conf : JWTConfig.t) :
  let config := jwt_defaults conf in
  (JWTConfig.SigningKey conf = EmptyString
   ↔ JWTWithConfig conf = inl "jwt middleware requires signing key"%string)
  ∧ (JWTConfig.SigningKey conf ≠ EmptyString
     ↔ JWTWithConfig conf = inr (jwt_handler config))
  ∧ JWTConfig.SigningKey config = JWTConfig.SigningKey conf
  ∧ JWTConfig.SigningMethod config
    = (if decide (JWTConfig.SigningMethod conf = EmptyString) then "HS256"%string
       else JWTConfig.SigningMethod conf)
  ∧ JWTConfig.ContextKey config
    = (if decide (JWTConfig.ContextKey conf = EmptyString) then "user"%string
       else JWTConfig.ContextKey conf)
  ∧ jwt_Extractor config = default JWTFromHeader (JWTConfig.Extractor conf)
  ∧ JWTConfig.SigningMethod config ≠ EmptyString
  ∧ JWTConfig.ContextKey config ≠ EmptyString
  ∧ jwt_defaults config = config.
Proof.
  destruct conf as [key method ckey ex].
  cbv zeta. unfold JWTWithConfig, jwt_defaults, jwt_Extractor, GoString.len. simpl.
  repeat split.
  - intros ->. reflexivity.
  - destruct key; [reflexivity | discriminate].
  - destruct key; [contradiction | reflexivity].
  - destruct key; [discriminate | intros _; discriminate].
  - destruct (String.eqb_spec method ""); case_decide;
      first [reflexivity | contradiction].
  - destruct (String.eqb_spec ckey ""); case_decide;
      first [reflexivity | contradiction].
  - destruct ex; reflexivity.
  - destruct (String.eqb_spec method ""); [discriminate | assumption].
  - destruct (String.eqb_spec ckey ""); [discriminate | assumption].
  - f_equal.
    + destruct (String.eqb_spec method "") as [->|Hm]; [reflexivity|].
      now rewrite eqb_empty_false.
    + destruct (String.eqb_spec ckey "") as [->|Hc]; [reflexivity|].
      now rewrite eqb_empty_false.
    + destruct ex; reflexivity.
Qed.

End JWTConfiguration.

(** ** The extractors *)

Section Extractors.



(** The two answers of [JWTFromHeader]. *)
Lemma JWTFromHeader_cases (c : lessgo.Context) :
  (∃ token, JWTFromHeader c = ((token, None), c))
  ∨ JWTFromHeader c
    = ((EmptyString,
        Some (errorString "empty or invalid jwt in authorization header")), c).
Proof.
  unfold JWTFromHeader. destruct (_ && _); [left; eauto | now right].
Qed.

(** X9. JWTFromHeader answers a token exactly for the headers made of
    "Bearer" (in this very case), one more byte whatever it is, and a
    non-empty rest, and the token is that rest; for every other header,
    an absent or empty one included, it answers the error "empty or invalid
    jwt in authorization header". It never changes the context. *)
Theorem JWTFromHeader_contract (c : lessgo.Context) :
  let auth := lessgo.Header_Get (lessgo.request c) lessgo.HeaderAuthorization in
  (∀ token,
      JWTFromHeader c = ((token, None), c)
      ↔ ∃ sep : ascii,
          auth = ("Bearer" +:+ String sep token)%string ∧ token ≠ EmptyString)
  ∧ ((¬ ∃ (sep : ascii) (token : string),
          auth = ("Bearer" +:+ String sep token)%string ∧ token ≠ EmptyString)
     ↔ JWTFromHeader c
       = ((EmptyString,
           Some (errorString "empty or invalid jwt in authorization header")), c))
  ∧ (JWTFromHeader c).2 = c.
Proof.
  cbv zeta. split; [|split].
  - intros token. rewrite <- JWTFromHeader_accepts. split.
    + intros ->. reflexivity.
    + intros H. destruct (JWTFromHeader_cases c) as [[t Ht]|Herr];
        rewrite ?Ht, ?Herr in *; simpl in H; [|discriminate].
      now injection H as ->.
  - split.
    + intros Hno. destruct (JWTFromHeader_cases c) as [[t Ht]|Herr];
        [|exact Herr].
      exfalso. apply Hno.
      destruct (proj1 (JWTFromHeader_accepts c t)) as [sep Hsep];
        [now rewrite Ht | eauto].
    + intros Herr (sep & token & Hshape).
      assert (H : (JWTFromHeader c).1 = (token, None))
        by (apply JWTFromHeader_accepts; eauto).
      rewrite Herr in H. discriminate H.
  - destruct (JWTFromHeader_cases c) as [[t Ht]|Herr];
      rewrite ?Ht, ?Herr; reflexivity.
Qed.

End Extractors.

(** ** More runs of the CSRF guard *)

Section CSRFRuns.

Variable now : Time.
Variables (conf : CSRFConfig.t) (mw : lessgo.HandlerFunc → Handler).
Hypothesis Hbuilt : CSRFWithConfig now conf = inr mw.
Variables (next : lessgo.HandlerFunc) (w : World) (f : nat → byte).
Hypothesis Hfilled : reader w (reads w) = rand.Filled f.

Let config := csrf_defaults now conf.
Let secret := bytes (CSRFConfig.Secret config).
Let method := lessgo.Method (lessgo.request (ctx w)).
Let salt := map f (seq 0 8).
Let c1 := csrf_issued config salt (ctx w).
Let after (c : lessgo.Context) (more : list Event) : World :=
  mkWorld c (S (reads w)) (reader w) (trace w ++ csrf_issue_trace config salt ++ more).

Hypothesis Hunsafe : ¬ In method safe_methods.

Lemma unsafe_run :
  mw next w
  = let '((token, err), c2) := csrf_Extractor config c1 in
    match err with
    | Some e => (Some e, after c2 [EvExtractor])
    | None =>
        match validateCSRFToken token secret with
        | (_, Some e) => (Some e, after c2 [EvExtractor])
        | (false, None) =>
            (Some (NewHTTPError StatusForbidden "invalid csrf token"),
             after c2 [EvExtractor])
        | (true, None) => ((next c2).1, after (next c2).2 [EvExtractor; EvNext])
        end
    end.
Proof.
  destruct (CSRFWithConfig_inr now conf mw Hbuilt) as [-> _].
  change (csrf_defaults now conf) with config.
  apply (csrf_run_unsafe config next w f Hfilled).
  destruct (safe_method _) eqn:E; [|reflexivity].
  exfalso. apply Hunsafe. now apply safe_method_iff.
Qed.

(** X10. A state-changing request that presents a token valid under the
    secret goes through to the next handler, whatever salt the token was
    made from: it need not be the token of this response or of the cookie,
    nor have an 8-byte salt. The next handler runs on the context the
    extractor left, and its answer is the answer of the guard. *)
Theorem csrf_any_valid_token_accepted (presented_salt : list byte)
    (c2 : lessgo.Context) :
  csrf_Extractor config c1 = ((generateCSRFToken secret presented_salt, None), c2) →
  mw next w = ((next c2).1, after (next c2).2 [EvExtractor; EvNext]).
Proof.
  intros Hex. rewrite unsafe_run, Hex.
  assert (Hval : validateCSRFToken (generateCSRFToken secret presented_salt) secret
                 = (true, None)).
  { unfold generateCSRFToken at 1.
    rewrite validate_shape by apply Encode_no_colon.
    fold (generateCSRFToken secret presented_salt). now rewrite String.eqb_refl. }
  rewrite Hval. reflexivity.
Qed.

(** X11. A state-changing request whose token has something else than
    valid hex after its first colon is not answered 403: the guard returns
    the decode error of encoding/hex as it is, and the next handler is not
    called. *)
Theorem csrf_malformed_token_decode_error (pre post : string)
    (c2 : lessgo.Context) :
  ¬ In ":"%char (list_ascii_of_string pre) →
  is_hex post = false →
  csrf_Extractor config c1 = (((pre +:+ ":" +:+ post)%string, None), c2) →
  ∃ e, (hex.DecodeString post).2 = Some e
       ∧ (e = hexErrLength ∨ ∃ c, e = hexInvalidByteError c)
       ∧ mw next w = (Some e, after c2 [EvExtractor]).
Proof.
  intros Hfree Hhex Hex. rewrite unsafe_run, Hex.
  unfold validateCSRFToken.
  change (":" +:+ post)%string with (String ":" post).
  rewrite slice_after_first by assumption.
  unfold GoString.Index. rewrite index_from_first by assumption.
  destruct (Z.ltb_spec (0 + GoString.len pre) 0) as [Hneg|_];
    [unfold GoString.len in Hneg; lia|].
  destruct (hex.DecodeString post) as [dst [e|]] eqn:Hdec.
  - exists e. repeat split.
    apply (Decode_error_kind post). now rewrite Hdec.
  - exfalso. assert (H : is_hex post = true)
      by (apply Decode_error_iff; now rewrite Hdec).
    congruence.
Qed.

(** X12. With the default extractor, a state-changing request whose
    X-CSRF-Token header is absent, empty or without a colon is answered
    403 Forbidden: the header extractor never fails, so a missing token is
    an invalid token and not an extraction error. The request ends with
    the new token stored and sent. *)
Theorem csrf_missing_header_forbidden :
  CSRFConfig.Extractor conf = None →
  ¬ In ":"%char (list_ascii_of_string
                   (lessgo.Header_Get (lessgo.request (ctx w)) "X-CSRF-Token")) →
  mw next w
  = (Some (HTTPError 403 "invalid csrf token"), after c1 [EvExtractor]).
Proof.
  intros Hnil Hfree. rewrite unsafe_run.
  assert (Hex : csrf_Extractor config c1
                = ((lessgo.Header_Get (lessgo.request (ctx w)) "X-CSRF-Token", None),
                   c1)).
  { unfold csrf_Extractor, config, csrf_defaults. simpl. rewrite Hnil. simpl.
    unfold CSRFTokenFromHeader. do 2 f_equal. }
  rewrite Hex. unfold validateCSRFToken, GoString.Index.
  rewrite index_from_absent by assumption. reflexivity.
Qed.

(** X13. Issuing changes one entry of the store and adds one cookie: when
    the extractor leaves the context alone and the request is not
    forwarded, the context at the end has the new token under the context
    key, every other key as before, the cookies as before followed by the
    new one, and the same request. *)
Theorem csrf_rejected_request_frame (presented : string) (err : option error) :
  csrf_Extractor config c1 = ((presented, err), c1) →
  err ≠ None ∨ validateCSRFToken presented secret ≠ (true, None) →
  let out := mw next w in
  let token := generateCSRFToken secret salt in
  is_Some out.1
  ∧ lessgo.store (ctx out.2) !! CSRFConfig.ContextKey config
    = Some (lessgo.VString token)
  ∧ (∀ k, k ≠ CSRFConfig.ContextKey config →
          lessgo.store (ctx out.2) !! k = lessgo.store (ctx w) !! k)
  ∧ lessgo.cookies (ctx out.2) = lessgo.cookies (ctx w) ++ [csrf_cookie config token]
  ∧ lessgo.request (ctx out.2) = lessgo.request (ctx w).
Proof.
  intros Hex Hrej. cbv zeta. rewrite unsafe_run, Hex.
  assert (Hframe :
    lessgo.store c1 !! CSRFConfig.ContextKey config
    = Some (lessgo.VString (generateCSRFToken secret salt))
    ∧ (∀ k, k ≠ CSRFConfig.ContextKey config →
            lessgo.store c1 !! k = lessgo.store (ctx w) !! k)
    ∧ lessgo.cookies c1
      = lessgo.cookies (ctx w) ++ [csrf_cookie config (generateCSRFToken secret salt)]
    ∧ lessgo.request c1 = lessgo.request (ctx w)).
  { unfold c1, csrf_issued. simpl. fold secret. rewrite lookup_insert_eq.
    repeat split. intros k Hk. now rewrite lookup_insert_ne. }
  destruct err as [e|].
  - simpl. split; [eauto | exact Hframe].
  - destruct Hrej as [Hrej|Hrej]; [congruence|].
    destruct (validateCSRFToken presented secret) as [[|] [e|]];
      simpl; try (split; [eauto | exact Hframe]).
    congruence.
Qed.

End CSRFRuns.

(** ** More runs of the JWT guard *)

Section JWTRuns.

Context `{lib : jwt.Library}.

Variables (conf : JWTConfig.t) (mw : lessgo.HandlerFunc → Handler).
Hypothesis Hbuilt : JWTWithConfig conf = inr mw.
Variables (next : lessgo.HandlerFunc) (w : World).

Let config := jwt_defaults conf.
Let after (c : lessgo.Context) (more : list Event) : World :=
  mkWorld c (reads w) (reader w) (trace w ++ more).

Lemma built_run :
  mw next w
  = let '((auth, err), c1) := jwt_Extractor config (ctx w) in
    match err with
    | Some e => (Some (NewHTTPError StatusBadRequest (Error e)), after c1 [EvExtractor])
    | None =>
        match jwt.Parse auth (jwt_keyFunc config) with
        | inr token =>
            if jwt.Valid token then
              let c2 := lessgo.Set_ (JWTConfig.ContextKey config)
                                    (lessgo.VToken token) c1 in
              ((next c2).1,
               after (next c2).2
                 [EvExtractor;
                  EvSet (JWTConfig.ContextKey config) (lessgo.VToken token);
                  EvNext])
            else (Some ErrUnauthorized, after c1 [EvExtractor])
        | inl _ => (Some ErrUnauthorized, after c1 [EvExtractor])
        end
    end.
Proof.
  destruct (JWTWithConfig_inr conf mw Hbuilt) as [-> _].
  change (jwt_defaults conf) with config. apply jwt_run.
Qed.

(** X14. A token of the expected algorithm whose signature verifies under
    the configured key, with claims in order, is stored under the context
    key, marked valid and with its signature filled in, and the next
    handler runs on that context; its answer is the answer of the guard.
    The key given to the signature check is the bytes of SigningKey, and
    the signed text is the first two segments of the token. *)
Theorem jwt_valid_token_stored_and_forwarded (auth : string) (c1 : lessgo.Context)
    (t : jwt.Token) :
  jwt_Extractor config (ctx w) = ((auth, None), c1) →
  jwt.unverified auth = inr t →
  jwt.Alg (jwt.Method t) = JWTConfig.SigningMethod config →
  jwt.Verify (jwt.Method t) (jwt.signing_string auth) (jwt.signature auth)
             (GoString.bytes_of (JWTConfig.SigningKey conf)) = None →
  jwt.ClaimsError (jwt.Claims t) = None →
  let verified :=
    jwt.mkToken (jwt.Raw t) (jwt.Method t) (jwt.Header t) (jwt.Claims t)
                (jwt.signature auth) true in
  let c2 := lessgo.Set_ (JWTConfig.ContextKey config) (lessgo.VToken verified) c1 in
  lessgo.store c2 !! JWTConfig.ContextKey config = Some (lessgo.VToken verified)
  ∧ mw next w
    = ((next c2).1,
       after (next c2).2
         [EvExtractor;
          EvSet (JWTConfig.ContextKey config) (lessgo.VToken verified);
          EvNext]).
Proof.
  intros Hex Hun Halg Hver Hclaims. cbv zeta. split.
  - simpl. apply lookup_insert_eq.
  - rewrite built_run, Hex. unfold jwt.Parse. rewrite Hun.
    unfold jwt_keyFunc. rewrite Halg, String.eqb_refl. simpl.
    change (JWTConfig.SigningKey config) with (JWTConfig.SigningKey conf).
    rewrite Hver, Hclaims. reflexivity.
Qed.

(** X15. A token of the expected algorithm is answered 401 Unauthorized
    when its signature does not verify under the configured key or when
    its claims are refused; nothing is stored and the next handler is not
    called. *)
Theorem jwt_bad_signature_unauthorized (auth : string) (c1 : lessgo.Context)
    (t : jwt.Token) :
  jwt_Extractor config (ctx w) = ((auth, None), c1) →
  jwt.unverified auth = inr t →
  jwt.Alg (jwt.Method t) = JWTConfig.SigningMethod config →
  is_Some (jwt.Verify (jwt.Method t) (jwt.signing_string auth) (jwt.signature auth)
                      (GoString.bytes_of (JWTConfig.SigningKey conf)))
  ∨ is_Some (jwt.ClaimsError (jwt.Claims t)) →
  mw next w = (Some (HTTPError 401 "Unauthorized"), after c1 [EvExtractor]).
Proof.
  intros Hex Hun Halg Hbad. rewrite built_run, Hex. unfold jwt.Parse. rewrite Hun.
  unfold jwt_keyFunc. rewrite Halg, String.eqb_refl. simpl.
  change (JWTConfig.SigningKey config) with (JWTConfig.SigningKey conf).
  destruct (jwt.Verify _ _ _ _) as [e|]; [reflexivity|].
  destruct (jwt.ClaimsError _) as [m|]; [reflexivity|].
  destruct Hbad as [[x Hx]|[x Hx]]; discriminate.
Qed.

(** X16. A string that is not a token the library can take apart (not three
    segments, a header or claims that do not decode, no algorithm or an
    unknown one) is answered 401 Unauthorized, like a bad signature: the
    key function is not even asked. *)
Theorem jwt_malformed_token_unauthorized (auth : string) (c1 : lessgo.Context)
    (e : error) :
  jwt_Extractor config (ctx w) = ((auth, None), c1) →
  jwt.unverified auth = inl e →
  mw next w = (Some (HTTPError 401 "Unauthorized"), after c1 [EvExtractor]).
Proof.
  intros Hex Hun. rewrite built_run, Hex. unfold jwt.Parse. rewrite Hun.
  reflexivity.
Qed.

(** X17. With the default extractor, a request whose Authorization header
    is absent, empty, or anything else than "Bearer", one byte and a
    non-empty rest is answered 400 Bad Request with the message "empty or
    invalid jwt in authorization header"; the token parser is not reached
    and the context is untouched. *)
Theorem jwt_bad_header_bad_request :
  JWTConfig.Extractor conf = None →
  (¬ ∃ (sep : ascii) (token : string),
       lessgo.Header_Get (lessgo.request (ctx w)) "Authorization"
       = ("Bearer" +:+ String sep token)%string ∧ token ≠ EmptyString) →
  mw next w
  = (Some (HTTPError 400 "empty or invalid jwt in authorization header"),
     after (ctx w) [EvExtractor]).
Proof.
  intros Hnil Hno. rewrite built_run.
  assert (Hex : jwt_Extractor config (ctx w) = JWTFromHeader (ctx w)).
  { unfold jwt_Extractor, config, jwt_defaults. simpl. now rewrite Hnil. }
  rewrite Hex.
  destruct (JWTFromHeader_cases (ctx w)) as [[token Ht]|Herr].
  - exfalso. apply Hno.
    destruct (proj1 (JWTFromHeader_accepts (ctx w) token)) as [sep Hsep];
      [now rewrite Ht | eauto].
  - rewrite Herr. reflexivity.
Qed.


End JWTRuns.

(** ** The salt *)

Section Salt.

(** X19. generateSalt reads the random source once and answers a buffer of
    exactly the length asked for (0 to 255), also when the read fails; the
    error is the one of the source, and nil exactly when the source filled
    the buffer. The context is not touched. *)
Theorem generateSalt_contract (len : Z) (w : World) :
  0 <= len < 256 →
  let out := generateSalt len w in
  Z.of_nat (length out.1.1) = len
  ∧ (out.1.2 = None ↔ ∃ f, reader w (reads w) = rand.Filled f)
  ∧ (∀ partial e, reader w (reads w) = rand.Failed partial e → out.1.2 = Some e)
  ∧ ctx out.2 = ctx w
  ∧ reads out.2 = S (reads w)
  ∧ trace out.2 = trace w ++ [EvRandRead].
Proof.
  intros Hlen. cbv zeta. unfold generateSalt, rand_Read. simpl.
  rewrite Z.mod_small by lia.
  destruct (reader w (reads w)) as [f|partial e]; simpl.
  - rewrite length_map, length_seq, length_replicate.
    repeat split; try lia; eauto; intros; discriminate.
  - rewrite length_take, length_app, length_drop, length_replicate.
    repeat split; try lia; try discriminate.
    + intros [f Hf]. discriminate.
    + intros p e' [= _ ->]. reflexivity.
Qed.

Lemma generateSalt_contract_witness :
  Z.of_nat (length (generateSalt 8 SampleRuns.get_world_no_entropy).1.1) = 8
  ∧ (generateSalt 8 SampleRuns.get_world_no_entropy).1.2
    = Some (ioError "unexpected EOF").
Proof.
  destruct (generateSalt_contract 8 SampleRuns.get_world_no_entropy)
    as (Hlen & _ & Herr & _); [lia|].
  split; [exact Hlen|]. apply (Herr []). reflexivity.
Defined.

End Salt.

(** ** The further properties on sample requests *)

Section MoreSamples.

Import Sample SampleRuns MoreRuns.

Let issued (w : World) : lessgo.Context :=
  csrf_issued csrf_default (map salt_of (seq 0 8)) (ctx w).

Lemma csrf_any_valid_token_accepted_witness :
  (csrf_handler csrf_default ok (post_with foreign_token)).1 = None.
Proof.
  rewrite (csrf_any_valid_token_accepted 0 (csrf_config None)
             (csrf_handler csrf_default) eq_refl ok (post_with foreign_token)
             salt_of eq_refl not_in_safe_methods_POST
             [xde; xad; xbe] (issued (post_with foreign_token))).
  - reflexivity.
  - vm_compute. reflexivity.
Defined.

Lemma not_in_00 : ¬ In ":"%char (list_ascii_of_string "00").
Proof. simpl. intros [H|[H|[]]]; discriminate. Qed.

Lemma csrf_malformed_token_decode_error_witness :
  (csrf_handler csrf_default ok (post_with "00:zz")).1
  = Some (hexInvalidByteError "z").
Proof.
  destruct (csrf_malformed_token_decode_error 0 (csrf_config None)
              (csrf_handler csrf_default) eq_refl ok (post_with "00:zz")
              salt_of eq_refl not_in_safe_methods_POST
              "00" "zz" (issued (post_with "00:zz")) not_in_00 eq_refl)
    as (e & Hdec & _ & Hrun).
  - vm_compute. reflexivity.
  - rewrite Hrun. simpl. rewrite <- Hdec. reflexivity.
Defined.

Lemma not_in_empty : ¬ In ":"%char (list_ascii_of_string "").
Proof. simpl. tauto. Qed.

Lemma csrf_missing_header_forbidden_witness :
  (csrf_handler csrf_default ok post_world).1
  = Some (HTTPError 403 "invalid csrf token").
Proof.
  rewrite (csrf_missing_header_forbidden 0 (csrf_config None)
             (csrf_handler csrf_default) eq_refl ok post_world
             salt_of eq_refl not_in_safe_methods_POST eq_refl not_in_empty).
  reflexivity.
Defined.

Lemma csrf_rejected_request_frame_witness :
  lessgo.cookies (ctx (csrf_handler csrf_default ok post_world).2)
  = [csrf_cookie csrf_default (generateCSRFToken secret (map salt_of (seq 0 8)))]
  ∧ lessgo.store (ctx (csrf_handler csrf_default ok post_world).2) !! "other"%string
    = None.
Proof.
  destruct (csrf_rejected_request_frame 0 (csrf_config None)
              (csrf_handler csrf_default) eq_refl ok post_world
              salt_of eq_refl not_in_safe_methods_POST
              EmptyString None)
    as (_ & _ & Hother & Hcookies & _).
  - reflexivity.
  - right. vm_compute. discriminate.
  - split; [exact Hcookies|]. rewrite Hother; [reflexivity | discriminate].
Defined.

Lemma jwt_valid_token_stored_and_forwarded_witness :
  (jwt_handler (jwt_defaults hs1_config) ok hs1_world).1 = None.
Proof.
  destruct (jwt_valid_token_stored_and_forwarded hs1_config
              (jwt_handler (jwt_defaults hs1_config)) eq_refl ok hs1_world
              hs1_auth (ctx hs1_world) hs1_token)
    as [_ Hrun];
    [reflexivity | reflexivity | reflexivity | vm_compute; reflexivity
    | reflexivity | ].
  rewrite Hrun. reflexivity.
Defined.

Lemma jwt_bad_signature_unauthorized_witness :
  (jwt_handler (jwt_defaults hs1_other_key) ok hs1_world).1
  = Some (HTTPError 401 "Unauthorized").
Proof.
  rewrite (jwt_bad_signature_unauthorized hs1_other_key
             (jwt_handler (jwt_defaults hs1_other_key)) eq_refl ok hs1_world
             hs1_auth (ctx hs1_world) hs1_token).
  - reflexivity.
  - reflexivity.
  - reflexivity.
  - reflexivity.
  - left. vm_compute. eauto.
Defined.

Lemma jwt_malformed_token_unauthorized_witness :
  (jwt_handler (jwt_defaults hs1_config) ok junk_world).1
  = Some (HTTPError 401 "Unauthorized").
Proof.
  rewrite (jwt_malformed_token_unauthorized hs1_config
             (jwt_handler (jwt_defaults hs1_config)) eq_refl ok junk_world
             "junk" (ctx junk_world)
             (jwtValidationError "token contains an invalid number of segments")).
  - reflexivity.
  - reflexivity.
  - reflexivity.
Defined.

Lemma jwt_bad_header_bad_request_witness :
  (jwt_handler (jwt_defaults hs1_config) ok get_world).1
  = Some (HTTPError 400 "empty or invalid jwt in authorization header").
Proof.
  rewrite (jwt_bad_header_bad_request hs1_config
             (jwt_handler (jwt_defaults hs1_config)) eq_refl ok get_world eq_refl).
  - reflexivity.
  - intros (sep & token & H & _). discriminate H.
Defined.


End MoreSamples.

(** ** Every way a CSRF run can end *)

Section CSRFOutcomes.

Variable now : Time.

Lemma validate_error_kind (token : string) (secret : list byte) (b : bool)
    (e : error) :
  validateCSRFToken token secret = (b, Some e) →
  e = hexErrLength ∨ ∃ c, e = hexInvalidByteError c.
Proof.
  unfold validateCSRFToken. destruct (_ <? 0); [discriminate|].
  destruct (hex.DecodeString _) as [salt [e'|]] eqn:Hdec; [|discriminate].
  intros [= _ <-]. eapply Decode_error_kind. now rewrite Hdec.
Qed.

(** X20. Whatever the request and the random source, a run of the CSRF
    guard ends in one of two ways. Either the next handler is not called
    and the answer is an error: the error of the random source, the error
    of the extractor, a decode error of encoding/hex, or 403 "invalid csrf
    token". Or the next handler is called, once and last, and its answer is
    the answer of the guard. The guard makes up no other error and never
    answers nil by itself. *)
Theorem csrf_outcomes (conf : CSRFConfig.t) (mw : lessgo.HandlerFunc → Handler)
    (next : lessgo.HandlerFunc) (w : World) :
  CSRFWithConfig now conf = inr mw →
  let config := csrf_defaults now conf in
  let out := mw next w in
  ∃ added, trace out.2 = trace w ++ added ∧
    ((¬ In EvNext added
      ∧ ∃ e, out.1 = Some e
             ∧ ((∃ partial, reader w (reads w) = rand.Failed partial e)
                ∨ (∃ c, (csrf_Extractor config c).1.2 = Some e)
                ∨ e = hexErrLength
                ∨ (∃ c, e = hexInvalidByteError c)
                ∨ e = HTTPError 403 "invalid csrf token"))
     ∨ (∃ c before, added = before ++ [EvNext] ∧ ¬ In EvNext before
                    ∧ out.1 = (next c).1 ∧ ctx out.2 = (next c).2)).
Proof.
  intros Hbuilt. cbv zeta.
  destruct (CSRFWithConfig_inr now conf mw Hbuilt) as [-> _].
  set (config := csrf_defaults now conf).
  assert (Hissue : ∀ salt, ¬ In EvNext (csrf_issue_trace config salt)).
  { intros salt. simpl. intros [H|[H|[H|[]]]]; discriminate. }
  assert (Hissue' : ∀ salt, ¬ In EvNext (csrf_issue_trace config salt ++ [EvExtractor])).
  { intros salt Hin. apply in_app_or in Hin as [Hin|[Hin|[]]];
      [now apply (Hissue salt) | discriminate]. }
  destruct (reader w (reads w)) as [f|partial e] eqn:Hreader.
  - destruct (safe_method (lessgo.Method (lessgo.request (ctx w)))) eqn:Hsafe.
    + rewrite (csrf_run_safe config next w f Hreader Hsafe).
      eexists. split; [reflexivity|]. right.
      eexists _, (csrf_issue_trace config (map f (seq 0 8))).
      repeat split. apply Hissue.
    + rewrite (csrf_run_unsafe config next w f Hreader Hsafe).
      destruct (csrf_Extractor config _) as [[token [e|]] c2] eqn:Hex.
      * eexists. split; [reflexivity|]. left. split; [apply Hissue'|].
        exists e. split; [reflexivity|]. right; left.
        eexists. rewrite Hex. reflexivity.
      * destruct (validateCSRFToken token _) as [b [e|]] eqn:Hval.
        -- assert (Hkind := validate_error_kind _ _ _ _ Hval).
           destruct b; (eexists; split; [reflexivity|]; left;
             split; [apply Hissue'|]; exists e; split; [reflexivity|];
             destruct Hkind as [->|Hc]; [right; right; left; reflexivity
                                        | right; right; right; left; exact Hc]).
        -- destruct b.
           ++ eexists. split; [reflexivity|]. right.
              exists c2, (csrf_issue_trace config (map f (seq 0 8)) ++ [EvExtractor]).
              repeat split. apply Hissue'.
           ++ eexists. split; [reflexivity|]. left. split; [apply Hissue'|].
              eexists. split; [reflexivity|]. right; right; right; right.
              reflexivity.
  - rewrite (csrf_run_rand_failed config next w partial e Hreader).
    exists [EvRandRead]. split; [reflexivity|]. left. split.
    + simpl. intros [H|[]]. discriminate.
    + exists e. split; [reflexivity|]. left. eauto.
Qed.

End CSRFOutcomes.

Lemma csrf_outcomes_witness :
  ∃ added,
    trace (csrf_handler SampleRuns.csrf_default Sample.ok SampleRuns.post_world).2
    = trace SampleRuns.post_world ++ added.
Proof.
  destruct (csrf_outcomes 0 (Sample.csrf_config None)
              (csrf_handler SampleRuns.csrf_default) Sample.ok SampleRuns.post_world
              eq_refl)
    as (added & Htrace & _).
  exists added. exact Htrace.
Defined.
